(** * Travel agent: a shallow embedding of the planning core

    The development follows the Python sources

    - [src/agent/travel_agent.py]   ([HybridTravelAgent])
    - [src/tools/flight_search_tool.py] ([FlightSearchTool])
    - [src/tools/weather_tool.py]   ([WeatherTool])
    - [src/utils/data_loader.py]    ([DataLoader])
    - [app.py]                      (the plan button of the page)

    Python values are modelled as follows.  Integers are [Z]; a JSON or
    float quantity (temperatures, precipitation, ratings, coordinates) is
    the rational [Q] that the number stands for, and comparing two numbers
    compares these.  Arithmetic on floats rounds: the average high of
    the weather tool, which is computed from float temperatures, takes
    Python's sum and quotient as parameters, and the sums and products of
    the budget are stated for whole numbers, on which Python is exact.
    Text is a [string] of bytes: literals keep their UTF-8 bytes,
    and the case and whitespace operations ([upper], [lower], [strip]) act
    on the ASCII range and leave other bytes alone.  A function that can
    raise returns a [result]; a [try ... except] becomes a [match] on it. *)

From Stdlib Require Import String Ascii List ZArith QArith Bool Lia.
From Stdlib Require Import Sorted Permutation DecimalString Lqa.
From Stdlib Require DecimalZ.
Import ListNotations.

Set Warnings "-register-all".

Open Scope string_scope.
Open Scope Z_scope.

(* ================================================================== *)
(** * Python built-ins used by the sources *)
(* ================================================================== *)

Module Py.

(** ** Exceptions and the error monad

    An exception is its class and the text of its message.  Where Python
    quotes the offending value inside the message, the text here leaves
    the value out. *)

Inductive exn : Type :=
  | ValueError (why : string)
  | FileNotFoundError (path : string)
  | IndexError
  | ZeroDivisionError
  | AttributeError (why : string)
  | RequestException (why : string)
  | OtherError (why : string).

Inductive result (A : Type) : Type :=
  | Ok (a : A)
  | Raise (e : exn).

Arguments Ok {A} a.
Arguments Raise {A} e.

Definition bind {A B : Type} (m : result A) (k : A -> result B) : result B :=
  match m with
  | Ok a => k a
  | Raise e => Raise e
  end.

Notation "x <- m ;; k" := (bind m (fun x => k))
  (at level 61, m at next level, right associativity).

(** [str(e)] of an exception, as used in the error messages. *)
Definition str_exn (e : exn) : string :=
  match e with
  | ValueError why => why
  | FileNotFoundError p => "Data file not found: " ++ p
  | IndexError => "list index out of range"
  | ZeroDivisionError => "division by zero"
  | AttributeError why => why
  | RequestException why => why
  | OtherError why => why
  end.

(** ** Text *)

Definition nl : string := String "010" EmptyString.

(** The double quote. *)
Definition dq : string := String "034" EmptyString.

Definition code (c : ascii) : Z := Z.of_N (N_of_ascii c).

Definition is_digit (c : ascii) : bool :=
  (48 <=? code c) && (code c <=? 57).

Definition digit_val (c : ascii) : Z := code c - 48.

Definition lower_char (c : ascii) : ascii :=
  if (65 <=? code c) && (code c <=? 90)
  then ascii_of_N (Z.to_N (code c + 32)) else c.

Definition upper_char (c : ascii) : ascii :=
  if (97 <=? code c) && (code c <=? 122)
  then ascii_of_N (Z.to_N (code c - 32)) else c.

Fixpoint smap (f : ascii -> ascii) (s : string) : string :=
  match s with
  | EmptyString => EmptyString
  | String c r => String (f c) (smap f r)
  end.

(** [s.lower()] and [s.upper()]. *)
Definition lower (s : string) : string := smap lower_char s.
Definition upper (s : string) : string := smap upper_char s.

(** The characters [str.strip()] removes: tab, line feed, vertical tab,
    form feed, carriage return, the separators 28..31 and the space. *)
Definition is_space (c : ascii) : bool :=
  ((9 <=? code c) && (code c <=? 13))
  || ((28 <=? code c) && (code c <=? 31))
  || (code c =? 32).

Fixpoint lstrip (s : string) : string :=
  match s with
  | EmptyString => EmptyString
  | String c r => if is_space c then lstrip r else s
  end.

(** [rstrip] drops the trailing run of spaces: a character is kept when
    it is not a space or something is kept after it. *)
Fixpoint rstrip (s : string) : string :=
  match s with
  | EmptyString => EmptyString
  | String c r =>
      match rstrip r with
      | EmptyString => if is_space c then EmptyString else String c EmptyString
      | r' => String c r'
      end
  end.

(** [s.strip()]. *)
Definition strip (s : string) : string := rstrip (lstrip s).

(** [s * n]. *)
Fixpoint repeat_str (s : string) (n : nat) : string :=
  match n with
  | O => EmptyString
  | S k => s ++ repeat_str s k
  end.

Fixpoint concat_str (l : list string) : string :=
  match l with
  | [] => EmptyString
  | s :: r => s ++ concat_str r
  end.

Fixpoint prefixb (p s : string) : bool :=
  match p, s with
  | EmptyString, _ => true
  | String a p', String b s' => Ascii.eqb a b && prefixb p' s'
  | String _ _, EmptyString => false
  end.

(** [p in s] for strings. *)
Fixpoint contains (p s : string) : bool :=
  prefixb p s ||
  match s with
  | EmptyString => false
  | String _ s' => contains p s'
  end.

(** ** Numbers as text *)

(** [str(n)] and [f"{n}"] for an integer. *)
Definition str_int (n : Z) : string := NilZero.string_of_int (Z.to_int n).

(** Insert a comma before every complete group of three digits, counted
    from the right; [k] is the number of digits already placed in the
    current group and the digits come least significant first. *)
Fixpoint group3 (k : nat) (rev_digits : list ascii) (acc : string) : string :=
  match rev_digits with
  | [] => acc
  | d :: r =>
      match k with
      | 3%nat => group3 1 r (String d (String "," acc))
      | _ => group3 (S k) r (String d acc)
      end
  end.

(** [f"{n:,}"] for an integer. *)
Definition fmt_comma (n : Z) : string :=
  let digits := list_ascii_of_string (str_int (Z.abs n)) in
  let body := group3 0 (rev digits) EmptyString in
  if n <? 0 then String "-" body else body.

(** ** Calendar dates: [datetime.strptime(s, "%Y-%m-%d")] and day differences *)

Record date : Type := mkDate { year : Z; month : Z; day : Z }.

Definition is_leap (y : Z) : bool :=
  (y mod 4 =? 0) && (negb (y mod 100 =? 0) || (y mod 400 =? 0)).

Definition days_in_month (y m : Z) : Z :=
  if m =? 2 then (if is_leap y then 29 else 28)
  else if (m =? 4) || (m =? 6) || (m =? 9) || (m =? 11) then 30
  else 31.

Definition days_before_year (y : Z) : Z :=
  let p := y - 1 in p * 365 + p / 4 - p / 100 + p / 400.

Fixpoint days_before_month_aux (y : Z) (k : nat) : Z :=
  match k with
  | O => 0
  | S j => days_before_month_aux y j + days_in_month y (Z.of_nat (S j))
  end.

(** Days of year [y] before the first day of month [m]. *)
Definition days_before_month (y m : Z) : Z :=
  days_before_month_aux y (Z.to_nat (m - 1)).

(** [date.toordinal()]: 1 is 0001-01-01. *)
Definition toordinal (d : date) : Z :=
  days_before_year (year d) + days_before_month (year d) (month d) + day d.

(** [(b - a).days] for two midnights. *)
Definition days_between (a b : date) : Z := toordinal b - toordinal a.

Definition valid_date (d : date) : bool :=
  (1 <=? year d) && (year d <=? 9999)
  && (1 <=? month d) && (month d <=? 12)
  && (1 <=? day d) && (day d <=? days_in_month (year d) (month d)).

(** The directive [%Y]: exactly four digits. *)
Definition parse_year (s : string) : option (Z * string) :=
  match s with
  | String a (String b (String c (String d r))) =>
      if is_digit a && is_digit b && is_digit c && is_digit d
      then Some (1000 * digit_val a + 100 * digit_val b
                 + 10 * digit_val c + digit_val d, r)
      else None
  | _ => None
  end.

(** The directive [%m], alternatives in the order the pattern tries
    them: [1[0-2]], [0[1-9]], [[1-9]]. *)
Definition month_alts (s : string) : list (Z * string) :=
  match s with
  | String a r =>
      (match r with
       | String b r' =>
           (if (code a =? 49) && (48 <=? code b) && (code b <=? 50)
            then [(10 + digit_val b, r')] else [])
           ++ (if (code a =? 48) && (49 <=? code b) && (code b <=? 57)
               then [(digit_val b, r')] else [])
       | EmptyString => []
       end)
      ++ (if (49 <=? code a) && (code a <=? 57) then [(digit_val a, r)] else [])
  | EmptyString => []
  end.

(** The directive [%d]: [3[0-1]], [[1-2]\d], [0[1-9]], [[1-9]], [ [1-9]]. *)
Definition day_alts (s : string) : list (Z * string) :=
  match s with
  | String a r =>
      (match r with
       | String b r' =>
           (if (code a =? 51) && (48 <=? code b) && (code b <=? 49)
            then [(30 + digit_val b, r')] else [])
           ++ (if (49 <=? code a) && (code a <=? 50) && is_digit b
               then [(10 * digit_val a + digit_val b, r')] else [])
           ++ (if (code a =? 48) && (49 <=? code b) && (code b <=? 57)
               then [(digit_val b, r')] else [])
       | EmptyString => []
       end)
      ++ (if (49 <=? code a) && (code a <=? 57) then [(digit_val a, r)] else [])
      ++ (match r with
          | String b r' =>
              if (code a =? 32) && (49 <=? code b) && (code b <=? 57)
              then [(digit_val b, r')] else []
          | EmptyString => []
          end)
  | EmptyString => []
  end.

Fixpoint first_some {A B : Type} (f : A -> option B) (l : list A) : option B :=
  match l with
  | [] => None
  | a :: r => match f a with Some b => Some b | None => first_some f r end
  end.

(** The first match of the pattern [%Y-%m-%d] at the start of [s], with
    the text left over after it. *)
Definition match_ymd (s : string) : option (date * string) :=
  match parse_year s with
  | Some (y, String "-" r1) =>
      first_some
        (fun mr : Z * string =>
           match snd mr with
           | String "-" r2 =>
               match day_alts r2 with
               | (d, r3) :: _ => Some (mkDate y (fst mr) d, r3)
               | [] => None
               end
           | _ => None
           end)
        (month_alts r1)
  | _ => None
  end.

(** [datetime.strptime(s, "%Y-%m-%d")]: [ValueError] when the text does
    not match, when something is left over, or when the date does not
    exist. *)
Definition strptime (s : string) : result date :=
  match match_ymd s with
  | None => Raise (ValueError "time data does not match format '%Y-%m-%d'")
  | Some (d, EmptyString) =>
      if valid_date d then Ok d
      else Raise (ValueError "date value out of range")
  | Some (_, String _ _) => Raise (ValueError "unconverted data remains")
  end.

End Py.

(** ** JSON values, as [json.load] returns them and [json.dumps] takes them *)

Module Json.

Inductive json : Type :=
  | JNull
  | JBool (b : bool)
  | JNum (q : Q)
  | JStr (s : string)
  | JArr (items : list json)
  | JObj (fields : list (string * json)).

(** [d.get(key)] on the fields of an object. *)
Fixpoint lookup (key : string) (fields : list (string * json)) : option json :=
  match fields with
  | [] => None
  | (k, v) :: r => if String.eqb k key then Some v else lookup key r
  end.

End Json.

(* ================================================================== *)
(** * [HybridTravelAgent] (src/agent/travel_agent.py) *)
(* ================================================================== *)

Module TravelAgent.
Import Py Json.

(** The dictionary [plan_trip] returns: [status] is ["success"] with an
    [itinerary], or ["error"] with a [message]. *)
Inductive PlanResult : Type :=
  | PlanSuccess (provider itinerary : string)
  | PlanError (provider message : string).

Inductive Status : Type := success | error.

Definition status (r : PlanResult) : Status :=
  match r with PlanSuccess _ _ => success | PlanError _ _ => error end.

Definition result_provider (r : PlanResult) : string :=
  match r with PlanSuccess p _ => p | PlanError p _ => p end.

Definition itinerary (r : PlanResult) : option string :=
  match r with PlanSuccess _ i => Some i | PlanError _ _ => None end.

Definition message (r : PlanResult) : option string :=
  match r with PlanSuccess _ _ => None | PlanError _ m => Some m end.

(** The fields of [self] that [plan_trip] reads.  [agent] is the executor
    built by [_create_agent] ([None] without a model); applied to the
    query it stands for [self.agent.invoke({"input": query})["output"]],
    which returns the narrative or raises. *)
Record HybridTravelAgent : Type := mkAgent {
  provider : string;
  agent : option (string -> result string)
}.

(** *** The tools (simplified for demo in the source)

    Each tool returns [json.dumps] of a dictionary; the model returns the
    dictionary itself, as a JSON value. *)

Definition sea_view_resort : json :=
  JObj [("name", JStr "Sea View Resort");
        ("rating", JNum 4.5%Q);
        ("price_per_night", JNum 3200%Q);
        ("amenities", JArr [JStr "Pool"; JStr "WiFi"])].

(** [_hotel_search]: the body of the [try] does not read [input_str] and
    cannot raise. *)
Definition _hotel_search (input_str : string) : json :=
  JObj [("status", JStr "success");
        ("hotels", JArr [sea_view_resort])].

(** The list under ["hotels"] in a tool answer. *)
Definition hotels_of (answer : json) : list json :=
  match answer with
  | JObj fields =>
      match lookup "hotels" fields with
      | Some (JArr hs) => hs
      | _ => []
      end
  | _ => []
  end.

(** *** [_demo_plan_trip] *)

Definition activities : list string :=
  ["Beach relaxation & water sports";
   "Heritage sites & local culture";
   "Shopping & cuisine exploration";
   "Adventure activities";
   "Scenic tours & photography"].

(** [(end_dt - start_dt).days + 1]. *)
Definition trip_days (start_dt end_dt : date) : Z :=
  days_between start_dt end_dt + 1.

(** [total = 4800 + (3200 * days) + (800 * days)]. *)
Definition demo_total (days : Z) : Z := 4800 + (3200 * days) + (800 * days).

(** The first f-string. *)
Definition demo_header (source dest : string) (days : Z) : string :=
  nl ++
  "🌍 YOUR " ++ str_int days ++ "-DAY TRIP TO " ++ upper dest ++ nl ++
  repeat_str "=" 60 ++ nl ++
  nl ++
  "✈️  FLIGHT: IndiGo - ₹4,800" ++ nl ++
  "    " ++ source ++ " → " ++ dest ++ " | 2h 30m" ++ nl ++
  nl ++
  "🏨 HOTEL: Sea View Resort - ₹3,200/night" ++ nl ++
  "    Rating: 4.5/5 | Beach access, Pool, WiFi" ++ nl ++
  nl ++
  "🌤️  WEATHER: Sunny, 28-32°C throughout trip" ++ nl ++
  nl ++
  "📅 ITINERARY:" ++ nl.

(** One round of [for i in range(days)]. *)
Definition demo_day_line (i : nat) : string :=
  nl ++ "   Day " ++ str_int (Z.of_nat i + 1) ++ ": "
     ++ nth (i mod length activities) activities "".

(** The line of the second f-string that states the total. *)
Definition budget_line (total : Z) : string :=
  "💰 BUDGET: ₹" ++ fmt_comma total ++ nl.

(** The second f-string. *)
Definition demo_budget (days : Z) : string :=
  nl ++
  nl ++
  budget_line (demo_total days) ++
  "    Flight: ₹4,800" ++ nl ++
  "    Hotel: ₹" ++ fmt_comma (3200 * days) ++ nl ++
  "    Food/Activities: ₹" ++ fmt_comma (800 * days) ++ nl ++
  nl ++
  repeat_str "=" 60 ++ nl.

(** The itinerary text for a number of days; [range(days)] is empty when
    [days <= 0]. *)
Definition demo_itinerary (source dest : string) (days : Z) : string :=
  fold_left (fun text i => text ++ demo_day_line i)
            (seq 0 (Z.to_nat days))
            (demo_header source dest days)
  ++ demo_budget days.

Definition _demo_plan_trip (source dest start end_ : string) (budget : option Z)
  : result PlanResult :=
  start_dt <- strptime start ;;
  end_dt <- strptime end_ ;;
  let days := trip_days start_dt end_dt in
  Ok (PlanSuccess "demo" (demo_itinerary source dest days)).

(** *** [plan_trip]

    [budget] is an integer amount, as the callers pass it, or [None]. *)

(** Truth value of an optional number and of an optional text. *)
Definition truthy_num (b : option Z) : bool :=
  match b with Some n => negb (n =? 0) | None => false end.

Definition truthy_str (p : option string) : bool :=
  match p with Some EmptyString => false | Some _ => true | None => false end.

Definition plan_query (source destination start_date end_date : string)
    (days : Z) (budget : option Z) (preferences : option string) : string :=
  let q0 := "Plan a " ++ str_int days ++ "-day trip from " ++ source ++ " to "
            ++ destination ++ " " ++ nl
            ++ "from " ++ start_date ++ " to " ++ end_date ++ "." in
  let q1 := if truthy_num budget
            then q0 ++ " Budget: ₹"
                    ++ match budget with Some b => str_int b | None => "" end
                    ++ "."
            else q0 in
  let q2 := if truthy_str preferences
            then q1 ++ " Preferences: "
                    ++ match preferences with Some p => p | None => "" end
                    ++ "."
            else q1 in
  q2 ++ " Provide complete itinerary with flights, hotels, weather, activities, and budget.".

Definition plan_trip (self : HybridTravelAgent)
    (source destination start_date end_date : string)
    (budget : option Z) (preferences : option string) : result PlanResult :=
  if String.eqb (provider self) "demo" then
    _demo_plan_trip source destination start_date end_date budget
  else
    start <- strptime start_date ;;
    end_ <- strptime end_date ;;
    let days := days_between start end_ + 1 in
    let query := plan_query source destination start_date end_date
                            days budget preferences in
    (* try: self.agent.invoke(...)  except Exception as e: ... *)
    match agent self with
    | None =>
        Ok (PlanError (provider self)
              (str_exn (AttributeError
                          "'NoneType' object has no attribute 'invoke'")))
    | Some invoke =>
        match invoke query with
        | Ok output => Ok (PlanSuccess (provider self) output)
        | Raise e => Ok (PlanError (provider self) (str_exn e))
        end
    end.

(** An agent without a model, as [_auto_initialize_llm] leaves it when
    neither service answers. *)
Definition demo_agent : HybridTravelAgent := mkAgent "demo" None.

(** The tool input [{"city": "Goa", "min_rating": 4.0, "max_price": 3000}]. *)
Definition goa_query : string :=
  "{" ++ dq ++ "city" ++ dq ++ ": " ++ dq ++ "Goa" ++ dq ++ ", "
      ++ dq ++ "min_rating" ++ dq ++ ": 4.0, "
      ++ dq ++ "max_price" ++ dq ++ ": 3000}".

(** ** Specification predicates *)

(** The itinerary text states the total [t] in its budget line. *)
Definition states_total (text : string) (t : Z) : Prop :=
  exists pre suf, text = pre ++ budget_line t ++ suf.

(** A numeric field of a hotel object. *)
Definition number_field (key : string) (hotel : json) : option Q :=
  match hotel with
  | JObj fields =>
      match lookup key fields with Some (JNum q) => Some q | _ => None end
  | _ => None
  end.

(** The hotel filter in the words of the specification: rating at least
    [min_rating] and price at most [max_price], a bound that is absent
    being no constraint. *)
Definition hotel_passes (min_rating max_price : option Q) (hotel : json) : bool :=
  match number_field "rating" hotel, number_field "price_per_night" hotel with
  | Some rating, Some price =>
      match min_rating with Some m => Qle_bool m rating | None => true end
      && match max_price with Some m => Qle_bool price m | None => true end
  | _, _ => false
  end.

Definition hotel_filter_spec (min_rating max_price : option Q)
    (dataset : list json) : list json :=
  filter (hotel_passes min_rating max_price) dataset.

End TravelAgent.

(* ================================================================== *)
(** * [FlightSearchTool] (src/tools/flight_search_tool.py) *)
(* ================================================================== *)

Module FlightSearch.
Import Py.

(** A flight dictionary of the dataset, with the keys that matching and
    sorting read and the two that name the flight.  A key that is read
    with a default may be missing, hence the options; a key that is
    present holds a value of the type the dataset gives it (text for the
    cities, integers for minutes and price). *)
Record Flight : Type := mkFlight {
  flight_id : string;
  airline : string;
  source : option string;
  destination : option string;
  duration_minutes : option Z;
  price : option Z
}.

(** [d.get(key, default)]. *)
Definition get {A : Type} (field : option A) (default : A) : A :=
  match field with Some v => v | None => default end.

(** The condition of the list comprehension in [_filter_flights]. *)
Definition flight_matches (source_lower dest_lower : string) (flight : Flight)
  : bool :=
  String.eqb (lower (get (source flight) "")) source_lower
  && String.eqb (lower (get (destination flight) "")) dest_lower.

Definition _filter_flights (flights_data : list Flight)
    (source destination : string) : list Flight :=
  let source_lower := strip (lower source) in
  let dest_lower := strip (lower destination) in
  filter (flight_matches source_lower dest_lower) flights_data.

(** [sorted(xs, key=key)] for integer keys.  Python's sort is stable and
    ascending, which fixes its result; the model computes that result by
    insertion, placing an element before the first one of the sorted rest
    whose key is not smaller. *)
Fixpoint insert_by {A : Type} (key : A -> Z) (x : A) (l : list A) : list A :=
  match l with
  | [] => [x]
  | y :: r => if key x <=? key y then x :: y :: r else y :: insert_by key x r
  end.

Fixpoint sorted {A : Type} (key : A -> Z) (l : list A) : list A :=
  match l with
  | [] => []
  | x :: r => insert_by key x (sorted key r)
  end.

(** [lambda x: x.get('duration_minutes', 999)]. *)
Definition duration_key (x : Flight) : Z := get (duration_minutes x) 999.

(** [lambda x: x.get('price', 999999)]. *)
Definition price_key (x : Flight) : Z := get (price x) 999999.

Definition _sort_flights (flights : list Flight) (sort_by : string)
  : list Flight :=
  if String.eqb sort_by "duration"
  then sorted duration_key flights
  else sorted price_key flights.

(** ** Specification predicates *)

(** Non-decreasing in a key, and the elements that have a given key. *)
Definition key_le {A : Type} (key : A -> Z) (a b : A) : Prop := key a <= key b.

Definition has_key {A : Type} (key : A -> Z) (k : Z) (x : A) : bool :=
  key x =? k.

(** The order of the flights in a numeric field of the record: [a] may
    stand before [b] when the field of [a] is at most the field of [b],
    a record without the field standing where the value [default]
    would. *)
Definition field_le (field : Flight -> option Z) (default : Z)
    (a b : Flight) : Prop :=
  match field a, field b with
  | Some x, Some y => x <= y
  | Some x, None => x <= default
  | None, Some y => default <= y
  | None, None => True
  end.

(** The flights that tie at the value [k] of a numeric field: those whose
    field is [k], and those without the field when [k] is [default]. *)
Definition field_is (field : Flight -> option Z) (default k : Z)
    (x : Flight) : bool :=
  match field x with
  | Some v => v =? k
  | None => default =? k
  end.

(** Matching in the words of the specification: equality of the city
    fields after lower-casing and trimming both the query and the record. *)
Definition matches_spec (source destination : string) (flight : Flight) : bool :=
  String.eqb (strip (lower (get (FlightSearch.source flight) "")))
             (strip (lower source))
  && String.eqb (strip (lower (get (FlightSearch.destination flight) "")))
                (strip (lower destination)).

End FlightSearch.

(* ================================================================== *)
(** * [WeatherTool] (src/tools/weather_tool.py) *)
(* ================================================================== *)

Module Weather.
Import Py.

Open Scope Q_scope.

Definition Qgtb (a b : Q) : bool := negb (Qle_bool a b).
Definition Qltb (a b : Q) : bool := negb (Qle_bool b a).

(** [sum(xs)]. *)
Definition Qsum (xs : list Q) : Q := fold_left Qplus xs 0.

Close Scope Q_scope.

(** [xs[:n]]: a negative bound counts from the end. *)
Definition slice_to {A : Type} (xs : list A) (n : Z) : list A :=
  if 0 <=? n then firstn (Z.to_nat n) xs
  else firstn (length xs - Z.to_nat (- n)) xs.

(** [xs[i]]. *)
Definition index {A : Type} (xs : list A) (i : nat) : result A :=
  match nth_error xs i with
  | Some x => Ok x
  | None => Raise IndexError
  end.

Record Coordinates : Type := mkCoord { lat : Q; lon : Q; name : string }.

Definition CITY_COORDINATES : list (string * Coordinates) :=
  [("goa", mkCoord 15.2993 74.1240 "Goa");
   ("bangalore", mkCoord 12.9716 77.5946 "Bangalore");
   ("bengaluru", mkCoord 12.9716 77.5946 "Bangalore");
   ("delhi", mkCoord 28.7041 77.1025 "Delhi");
   ("mumbai", mkCoord 19.0760 72.8777 "Mumbai");
   ("chennai", mkCoord 13.0827 80.2707 "Chennai");
   ("kolkata", mkCoord 22.5726 88.3639 "Kolkata");
   ("hyderabad", mkCoord 17.3850 78.4867 "Hyderabad");
   ("pune", mkCoord 18.5204 73.8567 "Pune");
   ("jaipur", mkCoord 26.9124 75.7873 "Jaipur");
   ("ahmedabad", mkCoord 23.0225 72.5714 "Ahmedabad");
   ("lucknow", mkCoord 26.8467 80.9462 "Lucknow");
   ("udaipur", mkCoord 24.5854 73.7125 "Udaipur");
   ("agra", mkCoord 27.1767 78.0081 "Agra");
   ("varanasi", mkCoord 25.3176 82.9739 "Varanasi")].

Fixpoint assoc {V : Type} (key : string) (table : list (string * V)) : option V :=
  match table with
  | [] => None
  | (k, v) :: r => if String.eqb k key then Some v else assoc key r
  end.

Definition _get_coordinates (city : string) : option Coordinates :=
  let city_key := strip (lower city) in
  assoc city_key CITY_COORDINATES.

Definition weather_codes_table : list (Z * string) :=
  [(0, "Clear Sky ☀️");
   (1, "Mainly Clear 🌤️");
   (2, "Partly Cloudy ⛅");
   (3, "Overcast ☁️");
   (45, "Foggy 🌫️");
   (48, "Foggy 🌫️");
   (51, "Light Drizzle 🌦️");
   (53, "Moderate Drizzle 🌦️");
   (55, "Dense Drizzle 🌧️");
   (61, "Slight Rain 🌧️");
   (63, "Moderate Rain 🌧️");
   (65, "Heavy Rain ⛈️");
   (71, "Slight Snow ❄️");
   (73, "Moderate Snow ❄️");
   (75, "Heavy Snow ❄️");
   (80, "Rain Showers 🌦️");
   (81, "Rain Showers 🌧️");
   (82, "Heavy Showers ⛈️");
   (95, "Thunderstorm ⛈️");
   (96, "Thunderstorm with Hail ⛈️");
   (99, "Heavy Thunderstorm ⛈️")].

Fixpoint code_lookup (c : Z) (table : list (Z * string)) : option string :=
  match table with
  | [] => None
  | (k, v) :: r => if k =? c then Some v else code_lookup c r
  end.

Definition _interpret_weather_code (c : Z) : string :=
  match code_lookup c weather_codes_table with
  | Some text => text
  | None => "Unknown"
  end.

(** The query parameters of the forecast request. *)
Record Params : Type := mkParams {
  latitude : Q;
  longitude : Q;
  daily_fields : list string;
  timezone : string;
  forecast_days : Z
}.

Definition weather_params (latitude longitude : Q) (days : Z) : Params :=
  mkParams latitude longitude
    ["temperature_2m_max"; "temperature_2m_min"; "weathercode";
     "precipitation_sum"; "precipitation_probability_max"]
    "auto"
    (Z.min days 7).

(** The object under ["daily"] of a forecast answer: parallel lists, one
    entry per day; a key that is missing reads as the empty list. *)
Record Daily : Type := mkDaily {
  time : list string;
  temperature_2m_max : list Q;
  temperature_2m_min : list Q;
  weathercode : list Z;
  precipitation_sum : list Q;
  precipitation_probability_max : list Q
}.

(** What the formatter appends to [output], one constructor per
    [output += ...]. *)
Inductive Line : Type :=
  | Title (city_name : string)
  | DayHead (i : nat) (day_name : string)
  | ConditionLine (condition : string)
  | TemperatureLine (temp_high temp_low : Q)
  | PrecipitationLine (rain rain_prob : Q)
  | Blank
  | TipsHead
  | TipLight
  | TipWarm
  | TipPleasant
  | TipUmbrella
  | TipNoRain.

Definition is_day_head (l : Line) : bool :=
  match l with DayHead _ _ => true | _ => false end.

Definition Line_eqb_tip (a b : Line) : bool :=
  match a, b with
  | TipLight, TipLight | TipWarm, TipWarm | TipPleasant, TipPleasant
  | TipUmbrella, TipUmbrella | TipNoRain, TipNoRain => true
  | _, _ => false
  end.

(** [tip in lines], for the five tips. *)
Definition has_tip (tip : Line) (lines : list Line) : bool :=
  existsb (Line_eqb_tip tip) lines.

Section Tool.

(** The library calls whose answers the tool only passes on:
    - [http_get url params] is [requests.get(url, params=params,
      timeout=10)] followed by [raise_for_status()] and [json()]; it
      raises, or yields the [daily] object of the answer, or [None] for
      an answer that is empty (which [if not weather_data] takes for a
      failed request);
    - [day_name d] is [datetime.fromisoformat(d).strftime("%A, %b %d")];
    - [str_num q] is the text of a number in an f-string;
    - [float_sum xs] is the number that [sum(xs)] computes and
      [float_div x n], for [n] other than 0, the number that [x / n]
      computes: each step of float arithmetic gives a float near the
      exact result, which float depends on the rounding (and, for [sum],
      on the summation the interpreter uses), and nothing is assumed
      about it here. *)
Variable http_get : string -> Params -> result (option Daily).
Variable day_name : string -> result string.
Variable str_num : Q -> string.
Variable float_sum : list Q -> Q.
Variable float_div : Q -> Z -> Q.

Definition api_base_url : string := "https://api.open-meteo.com/v1/forecast".

Definition _fetch_weather_data (latitude longitude : Q) (days : Z)
  : result (option Daily) :=
  match http_get api_base_url (weather_params latitude longitude days) with
  | Ok data => Ok data
  | Raise (RequestException _) => Ok None
  | Raise e => Raise e
  end.

(** One round of [for i in range(min(days, len(dates)))]. *)
Definition day_block (daily : Daily) (i : nat) : result (list Line) :=
  date <- index (time daily) i ;;
  dname <- day_name date ;;
  wcode <- index (weathercode daily) i ;;
  let condition := _interpret_weather_code wcode in
  temp_high <- index (temperature_2m_max daily) i ;;
  temp_low <- index (temperature_2m_min daily) i ;;
  let rain := nth i (precipitation_sum daily) 0%Q in
  let rain_prob := nth i (precipitation_probability_max daily) 0%Q in
  Ok ([DayHead i dname; ConditionLine condition;
       TemperatureLine temp_high temp_low]
      ++ (if Qgtb rain 0 || Qgtb rain_prob 20
          then [PrecipitationLine rain rain_prob] else [])
      ++ [Blank])%list.

Fixpoint day_blocks (daily : Daily) (rounds : list nat) : result (list Line) :=
  match rounds with
  | [] => Ok []
  | i :: r =>
      block <- day_block daily i ;;
      rest <- day_blocks daily r ;;
      Ok (block ++ rest)%list
  end.

(** [sum(temp_max[:days]) / days]: the sum is computed first, and the
    division raises for a divisor of 0. *)
Definition avg_temp (daily : Daily) (days : Z) : result Q :=
  let total := float_sum (slice_to (temperature_2m_max daily) days) in
  if days =? 0 then Raise ZeroDivisionError
  else Ok (float_div total days).

(** [any(p > 5 for p in precipitation[:days])]. *)
Definition has_rain (daily : Daily) (days : Z) : bool :=
  existsb (fun p => Qgtb p 5) (slice_to (precipitation_sum daily) days).

Definition travel_tips (avg : Q) (rain : bool) : list Line :=
  ([TipsHead]
   ++ (if Qgtb avg 30 then [TipLight]
       else if Qltb avg 20 then [TipWarm]
       else [TipPleasant])
   ++ (if rain then [TipUmbrella] else [TipNoRain]))%list.

(** The body of the [try] in [_format_weather_output]. *)
Definition format_lines (city_name : string) (daily : Daily) (days : Z)
  : result (list Line) :=
  let rounds := seq 0 (Z.to_nat (Z.min days (Z.of_nat (length (time daily))))) in
  blocks <- day_blocks daily rounds ;;
  avg <- avg_temp daily days ;;
  Ok ([Title city_name] ++ blocks
      ++ travel_tips avg (has_rain daily days))%list.

Definition render (l : Line) : string :=
  match l with
  | Title city_name => "🌤️ Weather Forecast for " ++ city_name ++ ":" ++ nl ++ nl
  | DayHead i dname =>
      "Day " ++ str_int (Z.of_nat i + 1) ++ " (" ++ dname ++ "):" ++ nl
  | ConditionLine condition => "  Condition: " ++ condition ++ nl
  | TemperatureLine temp_high temp_low =>
      "  Temperature: " ++ str_num temp_high ++ "°C (High) / "
                        ++ str_num temp_low ++ "°C (Low)" ++ nl
  | PrecipitationLine rain rain_prob =>
      "  Precipitation: " ++ str_num rain ++ "mm (" ++ str_num rain_prob
                          ++ "% chance)" ++ nl
  | Blank => nl
  | TipsHead => "💡 Travel Tips:" ++ nl
  | TipLight => "  • Pack light, breathable clothing and sunscreen" ++ nl
  | TipWarm => "  • Bring warm layers and a jacket" ++ nl
  | TipPleasant => "  • Pleasant weather, comfortable clothing recommended" ++ nl
  | TipUmbrella => "  • Carry an umbrella or raincoat" ++ nl
  | TipNoRain => "  • No rain expected, perfect for outdoor activities" ++ nl
  end.

Definition _format_weather_output (city_name : string) (daily : Daily)
    (days : Z) : string :=
  match format_lines city_name daily days with
  | Ok lines => concat_str (map render lines)
  | Raise e => "Error formatting weather data: " ++ str_exn e
  end.

(** [", ".join(xs)]. *)
Fixpoint join (sep : string) (xs : list string) : string :=
  match xs with
  | [] => ""
  | [x] => x
  | x :: r => x ++ sep ++ join sep r
  end.

Fixpoint insert_str (x : string) (l : list string) : list string :=
  match l with
  | [] => [x]
  | y :: r => if String.leb x y then x :: y :: r else y :: insert_str x r
  end.

(** [sorted(set(xs))] for texts. *)
Definition sorted_set (xs : list string) : list string :=
  fold_right insert_str [] (nodup string_dec xs).

(** The two answers of [_run] that are not a forecast. *)
Definition not_found_text (city : string) : string :=
  let available :=
    join ", " (sorted_set (map (fun c => name (snd c)) CITY_COORDINATES)) in
  "City '" ++ city ++ "' not found in database. "
  ++ "Available cities: " ++ available.

Definition failed_text (coords : Coordinates) : string :=
  "Failed to fetch weather data for " ++ name coords ++ ". Please try again.".

(** The body of the [try] in [_run]. *)
Definition run_body (city : string) (days : Z) : result string :=
  match _get_coordinates city with
  | None => Ok (not_found_text city)
  | Some coords =>
      weather_data <- _fetch_weather_data (lat coords) (lon coords) days ;;
      match weather_data with
      | None => Ok (failed_text coords)
      | Some daily => Ok (_format_weather_output (name coords) daily days)
      end
  end.

Definition _run (city : string) (days : Z) : string :=
  match run_body city days with
  | Ok text => text
  | Raise e => "Error in weather lookup: " ++ str_exn e
  end.

End Tool.

(** ** The library calls on sample data

    [iso_day_name] computes [datetime.fromisoformat(d).strftime("%A, %b
    %d")] for a date written YYYY-MM-DD, the form in which the forecast
    service gives its days; any other text is rejected here. *)

Definition weekday_names : list string :=
  ["Monday"; "Tuesday"; "Wednesday"; "Thursday"; "Friday"; "Saturday";
   "Sunday"].

Definition month_abbrs : list string :=
  ["Jan"; "Feb"; "Mar"; "Apr"; "May"; "Jun"; "Jul"; "Aug"; "Sep"; "Oct";
   "Nov"; "Dec"].

Definition two_digits (n : Z) : string :=
  if n <? 10 then "0" ++ str_int n else str_int n.

Definition iso_day_name (d : string) : result string :=
  if (String.length d =? 10)%nat then
    match strptime d with
    | Ok dt =>
        Ok (nth (Z.to_nat ((toordinal dt + 6) mod 7)) weekday_names ""
            ++ ", " ++ nth (Z.to_nat (month dt - 1)) month_abbrs ""
            ++ " " ++ two_digits (day dt))
    | Raise e => Raise e
    end
  else Raise (ValueError "Invalid isoformat string").

(** A number written as numerator/denominator; the samples only need
    some text for it. *)
Definition ratio_text (q : Q) : string :=
  str_int (Qnum q) ++ "/" ++ str_int (Zpos (Qden q)).

(** Arithmetic without rounding.  Python's sum and quotient agree with it
    wherever no step has to round, as for the one-day sample below (the
    sum of the one number 30, divided by 1); the samples that do not
    look at the average only need some arithmetic. *)
Definition exact_sum (xs : list Q) : Q := Qsum xs.

Definition exact_div (x : Q) (n : Z) : Q := (x / inject_Z n)%Q.

(** One day with a high of exactly 30 degrees. *)
Definition one_day_30 : Daily :=
  mkDaily ["2024-03-01"] [30%Q] [22%Q] [0] [0%Q] [0%Q].

(** The lines the formatter produces for it, with one day requested. *)
Definition one_day_30_lines : list Line :=
  [Title "Goa"; DayHead 0 "Friday, Mar 01"; ConditionLine "Clear Sky ☀️";
   TemperatureLine 30 22; Blank; TipsHead; TipPleasant; TipNoRain].

(** A week of forecast. *)
Definition sample_week : Daily :=
  mkDaily
    ["2024-03-01"; "2024-03-02"; "2024-03-03"; "2024-03-04"; "2024-03-05";
     "2024-03-06"; "2024-03-07"]
    [31.5%Q; 32.1%Q; 33.0%Q; 30.4%Q; 29.8%Q; 31.0%Q; 32.2%Q]
    [23.1%Q; 23.4%Q; 24.0%Q; 23.8%Q; 22.9%Q; 23.0%Q; 23.5%Q]
    [0; 1; 2; 61; 3; 0; 1]
    [0%Q; 0%Q; 0.4%Q; 7.5%Q; 0%Q; 0%Q; 0%Q]
    [0%Q; 5%Q; 30%Q; 80%Q; 10%Q; 0%Q; 0%Q].

Definition goa : Coordinates := mkCoord 15.2993 74.1240 "Goa".

(** A forecast service that answers with the sample week. *)
Definition sample_http (url : string) (params : Params)
  : result (option Daily) :=
  Ok (Some sample_week).

(** ** Specification predicates *)

(** The first [days] entries of a series, for [days >= 0]. *)
Definition window {A : Type} (xs : list A) (days : Z) : list A :=
  firstn (Z.to_nat days) xs.

(** The average of a non-empty series. *)
Definition average (xs : list Q) : Q :=
  (Qsum xs / inject_Z (Z.of_nat (length xs)))%Q.

(** The number of day entries among the lines. *)
Definition day_entries (lines : list Line) : nat :=
  length (filter is_day_head lines).

(** Round [i] of the loop finds an entry in each of the three series it
    indexes without a default. *)
Definition covers (daily : Daily) (i : nat) : Prop :=
  (i < length (weathercode daily))%nat
  /\ (i < length (temperature_2m_max daily))%nat
  /\ (i < length (temperature_2m_min daily))%nat.

(** The number of rounds of the loop: [min(days, len(dates))], none when
    that is negative. *)
Definition shown_days (daily : Daily) (days : Z) : nat :=
  Z.to_nat (Z.min days (Z.of_nat (length (time daily)))).

(** Every date that the loop reaches has a day name. *)
Definition dates_parse (day_name : string -> result string) (daily : Daily)
    (days : Z) : Prop :=
  forall i date,
    (i < shown_days daily days)%nat ->
    nth_error (time daily) i = Some date ->
    exists dname, day_name date = Ok dname.

(** How often a tip occurs among the lines. *)
Definition count_tip (tip : Line) (lines : list Line) : nat :=
  length (filter (Line_eqb_tip tip) lines).

(** Two days of dates and temperatures, but one weather code. *)
Definition short_codes : Daily :=
  mkDaily ["2024-03-01"; "2024-03-02"] [30%Q; 31%Q] [22%Q; 23%Q] [0] [] [].

(** The request [_run] sends for a city it knows. *)
Definition request_for (http_get : string -> Params -> result (option Daily))
    (coords : Coordinates) (days : Z) : result (option Daily) :=
  http_get api_base_url (weather_params (lat coords) (lon coords) days).

(** The forecast service answers the request for [city] with no more
    days than the request asks for. *)
Definition source_honours (http_get : string -> Params -> result (option Daily))
    (city : string) (days : Z) : Prop :=
  forall coords daily,
    _get_coordinates city = Some coords ->
    request_for http_get coords days = Ok (Some daily) ->
    Z.of_nat (length (time daily))
    <= forecast_days (weather_params (lat coords) (lon coords) days).

(** What a lookup comes to, with at most [cap] day entries in a
    forecast: the text for an unknown city; the text for a request that
    failed or came back empty; the text that reports an exception of the
    request other than a request failure; the text that reports an
    exception of the formatter; or the forecast. *)
Definition run_outcome (http_get : string -> Params -> result (option Daily))
    (day_name : string -> result string) (str_num : Q -> string)
    (float_sum : list Q -> Q) (float_div : Q -> Z -> Q)
    (city : string) (days : Z) (cap : nat) : Prop :=
  let text := _run http_get day_name str_num float_sum float_div city days in
  (_get_coordinates city = None /\ text = not_found_text city)
  \/ exists coords,
       _get_coordinates city = Some coords
       /\ (((request_for http_get coords days = Ok None
             \/ exists why,
                  request_for http_get coords days
                  = Raise (RequestException why))
            /\ text = failed_text coords)
           \/ (exists e,
                 request_for http_get coords days = Raise e
                 /\ (forall why, e <> RequestException why)
                 /\ text = "Error in weather lookup: " ++ str_exn e)
           \/ (exists daily e,
                 request_for http_get coords days = Ok (Some daily)
                 /\ format_lines day_name float_sum float_div (name coords) daily days = Raise e
                 /\ text = "Error formatting weather data: " ++ str_exn e)
           \/ (exists daily lines,
                 request_for http_get coords days = Ok (Some daily)
                 /\ format_lines day_name float_sum float_div (name coords) daily days = Ok lines
                 /\ (day_entries lines <= cap)%nat
                 /\ text = concat_str (map (render str_num) lines))).

End Weather.

(* ================================================================== *)
(** * [DataLoader] (src/utils/data_loader.py) *)
(* ================================================================== *)

(** ** [functools.lru_cache]: the store

    The entries are kept most recently used first.  A hit moves its entry
    to the front; a miss that returns stores the result, dropping the
    entry at the back when the store already holds [maxsize] entries; a
    miss that raises stores nothing. *)
Module Functools.

Section Lru.

Context {K V : Type}.
Variable eqb : K -> K -> bool.
Variable maxsize : nat.

Fixpoint cache_get (k : K) (cache : list (K * V)) : option V :=
  match cache with
  | [] => None
  | (k', v) :: r => if eqb k' k then Some v else cache_get k r
  end.

Fixpoint cache_remove (k : K) (cache : list (K * V)) : list (K * V) :=
  match cache with
  | [] => []
  | (k', v) :: r => if eqb k' k then cache_remove k r
                    else (k', v) :: cache_remove k r
  end.

Definition cache_touch (k : K) (v : V) (cache : list (K * V)) : list (K * V) :=
  (k, v) :: cache_remove k cache.

Definition cache_store (k : K) (v : V) (cache : list (K * V)) : list (K * V) :=
  if (maxsize <=? length cache)%nat
  then (k, v) :: removelast cache
  else (k, v) :: cache.

End Lru.

End Functools.

Module Loader.
Import Py Json Functools.

(** What the disk holds at a path. *)
Inductive File : Type :=
  | Missing
  | Unreadable (e : exn)
  | Malformed (why : string)
  | Parsed (data : json).

Definition FileSystem : Type := string -> File.

(** A loader object: its identity and its [data_path]. *)
Record DataLoader : Type := mkLoader { ident : nat; data_path : string }.

Fixpoint ends_with_sep (s : string) : bool :=
  match s with
  | EmptyString => false
  | String c EmptyString => Ascii.eqb c "/"
  | String _ r => ends_with_sep r
  end.

(** [os.path.join(a, b)]. *)
Definition path_join (a b : string) : string :=
  if prefixb "/" b then b
  else if String.eqb a "" || ends_with_sep a then a ++ b
  else a ++ "/" ++ b.

Definition common_keys : list string := ["flights"; "hotels"; "places"; "data"].

(** The [isinstance] cascade on the decoded document.  The fields of an
    object are those of the decoded dictionary, one pair per key. *)
Definition select (data : json) : json :=
  match data with
  | JArr _ => data
  | JObj fields =>
      match first_some (fun key => lookup key fields) common_keys with
      | Some v => v
      | None => JArr [data]
      end
  | _ => JArr []
  end.

(** The body of [load_json], with the paths it opens. *)
Definition load_json_body (fs : FileSystem) (self : DataLoader)
    (filename : string) : result json * list string :=
  let filepath := path_join (data_path self) filename in
  match fs filepath with
  | Missing => (Raise (FileNotFoundError filepath), [])
  | Unreadable e => (Raise e, [])
  | Malformed why =>
      (Raise (ValueError ("Invalid JSON in " ++ filepath ++ ": " ++ why)),
       [filepath])
  | Parsed data => (Ok (select data), [filepath])
  end.

(** [@lru_cache(maxsize=10)] on a method: one store for the class, keyed
    by the arguments [(self, filename)]. *)
Definition Key : Type := (nat * string)%type.

Definition key_eqb (a b : Key) : bool :=
  Nat.eqb (fst a) (fst b) && String.eqb (snd a) (snd b).

Definition maxsize : nat := 10.

Record State : Type := mkState {
  cache : list (Key * json);
  opened : list string
}.

Definition load_json (fs : FileSystem) (self : DataLoader) (filename : string)
    (st : State) : result json * State :=
  let key : Key := (ident self, filename) in
  match cache_get key_eqb key (cache st) with
  | Some v => (Ok v, mkState (cache_touch key_eqb key v (cache st)) (opened st))
  | None =>
      let (r, reads) := load_json_body fs self filename in
      match r with
      | Ok v => (Ok v, mkState (cache_store maxsize key v (cache st))
                               (opened st ++ reads))
      | Raise e => (Raise e, mkState (cache st) (opened st ++ reads))
      end
  end.

Definition clear_cache (st : State) : State := mkState [] (opened st).

(** A sequence of [load_json] calls, each with the disk as it is then. *)
Definition Call : Type := (FileSystem * DataLoader * string)%type.

Definition call_key (c : Call) : Key := (ident (snd (fst c)), snd c).

Definition do_call (st : State) (c : Call) : State :=
  snd (load_json (fst (fst c)) (snd (fst c)) (snd c) st).

Definition run (calls : list Call) (st : State) : State :=
  fold_left do_call calls st.

(** ** Specification predicates and sample data *)

Definition keys (st : State) : list Key := map fst (cache st).

(** The store holds each key once, and only keys of [S]. *)
Definition cache_within (S : list Key) (st : State) : Prop :=
  NoDup (keys st) /\ incl (keys st) S.

(** A store that has just been created or cleared, nothing opened yet. *)
Definition fresh : State := mkState [] [].

Definition sample_loader : DataLoader := mkLoader 0 "data/".

(** A disk where every path holds the empty array. *)
Definition fs_arrays : FileSystem := fun _ => Parsed (JArr []).

(** A disk with one file, an object with none of the common keys. *)
Definition fs_single : FileSystem :=
  fun path =>
    if String.eqb path "data/hotels.json"
    then Parsed (JObj [("name", JStr "Taj")])
    else Missing.

Definition eleven_files : list string :=
  ["f0.json"; "f1.json"; "f2.json"; "f3.json"; "f4.json"; "f5.json";
   "f6.json"; "f7.json"; "f8.json"; "f9.json"; "f10.json"].

Definition calls_on (fs : FileSystem) (self : DataLoader)
    (filenames : list string) : list Call :=
  map (fun filename => (fs, self, filename)) filenames.

(** ** The three named loaders *)

Definition load_flights (fs : FileSystem) (self : DataLoader) (st : State)
  : result json * State :=
  load_json fs self "flights.json" st.

Definition load_hotels (fs : FileSystem) (self : DataLoader) (st : State)
  : result json * State :=
  load_json fs self "hotels.json" st.

Definition load_places (fs : FileSystem) (self : DataLoader) (st : State)
  : result json * State :=
  load_json fs self "places.json" st.

(** The entry of key [k] holds [v] and has at most [n] entries in front
    of it in the store. *)
Definition recent (n : nat) (k : Key) (v : json) (c : list (Key * json))
  : Prop :=
  exists pre post,
    c = (pre ++ (k, v) :: post)%list
    /\ ~ In k (map fst pre)
    /\ (length pre <= n)%nat.

(** A disk with one file that does not decode. *)
Definition fs_broken : FileSystem :=
  fun path =>
    if String.eqb path "data/hotels.json"
    then Malformed "Expecting value: line 1 column 1 (char 0)"
    else Missing.

End Loader.

(* ================================================================== *)
(** * [FlightSearchTool]: loading the dataset *)
(* ================================================================== *)

Module FlightData.
Import Py Json Loader.

Definition sample_flight (flight_id airline source destination
    departure_time arrival_time : string)
    (duration_minutes price available_seats : Z) : json :=
  JObj [("flight_id", JStr flight_id);
        ("airline", JStr airline);
        ("source", JStr source);
        ("destination", JStr destination);
        ("departure_time", JStr departure_time);
        ("arrival_time", JStr arrival_time);
        ("duration_minutes", JNum (inject_Z duration_minutes));
        ("price", JNum (inject_Z price));
        ("available_seats", JNum (inject_Z available_seats))].

Definition _get_sample_flights : json :=
  JArr [sample_flight "6E-123" "IndiGo" "Delhi" "Goa" "14:00" "16:30" 150 4800 45;
        sample_flight "SG-456" "SpiceJet" "Delhi" "Goa" "09:00" "11:45" 165 5200 30;
        sample_flight "AI-789" "Air India" "Mumbai" "Bangalore" "10:30" "12:00"
                      90 3500 60;
        sample_flight "UK-321" "Vistara" "Bangalore" "Delhi" "18:00" "21:00"
                      180 6500 25;
        sample_flight "6E-234" "IndiGo" "Delhi" "Mumbai" "06:00" "08:15"
                      135 4200 50].

(** [_load_flights]: the sample data when the file does not exist or
    anything raises; a document that is neither a list nor a dictionary
    has no [get], which raises too. *)
Definition _load_flights (fs : FileSystem) (data_path : string) : json :=
  match fs data_path with
  | Missing => _get_sample_flights
  | Unreadable _ => _get_sample_flights
  | Malformed _ => _get_sample_flights
  | Parsed data =>
      match data with
      | JArr _ => data
      | JObj fields =>
          match lookup "flights" fields with
          | Some v => v
          | None => JArr []
          end
      | _ => _get_sample_flights
      end
  end.

(** A disk whose flights file is an object with the key [flights]. *)
Definition fs_wrapped : FileSystem :=
  fun path =>
    if String.eqb path "data/flights.json"
    then Parsed (JObj [("version", JNum 1);
                       ("flights", JArr [sample_flight "6E-123" "IndiGo" "Delhi"
                                           "Goa" "14:00" "16:30" 150 4800 45])])
    else Missing.

End FlightData.

(* ================================================================== *)
(** * [FlightSearchTool]: the answer text *)
(* ================================================================== *)

Module FlightReport.
Import Py FlightSearch.

(** [_format_duration]; [//] and [%] round towards minus infinity, as
    [Z.div] and [Z.modulo] do for a positive divisor. *)
Definition _format_duration (minutes : Z) : string :=
  let hours := minutes / 60 in
  let mins := minutes mod 60 in
  if 0 <? mins then str_int hours ++ "h " ++ str_int mins ++ "m"
  else str_int hours ++ "h".

(** [str(x)] of [d.get(key)]: [None] for a key that is missing. *)
Definition show_text (field : option string) : string :=
  match field with Some text => text | None => "None" end.

Definition show_int (field : option Z) : string :=
  match field with Some n => str_int n | None => "None" end.

(** What [_format_flight_output] appends to [output], one constructor
    per [output += ...]. *)
Inductive Piece : Type :=
  | Found (count : nat)
  | Head (i : nat) (flight : Flight)
  | Route (flight : Flight)
  | Price (amount : Z)
  | Times (flight : Flight)
  | Duration (minutes : Z)
  | Seats (flight : Flight)
  | Recommend (best : Flight)
  | Word (by_price : bool)
  | Closing.

(** The flights that the pieces list, in order. *)
Definition listed (pieces : list Piece) : list Flight :=
  flat_map (fun piece => match piece with Head _ f => [f] | _ => [] end) pieces.

(** [lambda x: ...] of the sort that [sort_by] selects. *)
Definition sort_key (sort_by : string) : Flight -> Z :=
  if String.eqb sort_by "duration" then duration_key else price_key.

Section Report.

(** The record [Flight] holds the keys that matching and sorting read.
    The remaining keys of a flight dictionary, which only the answer text
    shows, are read through these functions. *)
Variable departure_time : Flight -> option string.
Variable arrival_time : Flight -> option string.
Variable available_seats : Flight -> option Z.

(** One round of [for i, flight in enumerate(flights[:3], 1)]; the
    format [{...:,}] raises [TypeError] on [None]. *)
Definition entry (i : nat) (flight : Flight) : result (list Piece) :=
  match price flight with
  | Some amount =>
      Ok [Head i flight; Route flight; Price amount; Times flight;
          Duration (get (duration_minutes flight) 0); Seats flight]
  | None =>
      Raise (OtherError "unsupported format string passed to NoneType.__format__")
  end.

Fixpoint entries (i : nat) (flights : list Flight) : result (list Piece) :=
  match flights with
  | [] => Ok []
  | flight :: rest =>
      block <- entry i flight ;;
      more <- entries (S i) rest ;;
      Ok (block ++ more)%list
  end.

(** ["price" if len(flights) > 1 and best.get('price') <=
    flights[1].get('price', 999999) else "duration"]; comparing [None]
    with a number raises [TypeError]. *)
Definition recommendation (flights : list Flight) : result bool :=
  match flights with
  | best :: second :: _ =>
      match price best with
      | Some amount => Ok (amount <=? price_key second)
      | None =>
          Raise (OtherError
                   "'<=' not supported between instances of 'NoneType' and 'int'")
      end
  | _ => Ok false
  end.

(** The pieces of the answer for a list of flights that is not empty. *)
Definition report (best : Flight) (flights : list Flight)
  : result (list Piece) :=
  listing <- entries 1 (firstn 3 flights) ;;
  by_price <- recommendation flights ;;
  Ok ([Found (length flights)] ++ listing
      ++ [Recommend best; Word by_price; Closing])%list.

Definition render (piece : Piece) : string :=
  match piece with
  | Found count =>
      "Found " ++ str_int (Z.of_nat count) ++ " flight(s):" ++ nl ++ nl
  | Head i flight =>
      str_int (Z.of_nat i) ++ ". " ++ airline flight
      ++ " (" ++ flight_id flight ++ ")" ++ nl
  | Route flight =>
      "   Route: " ++ show_text (source flight) ++ " â†’ "
      ++ show_text (destination flight) ++ nl
  | Price amount => "   Price: â‚¹" ++ fmt_comma amount ++ nl
  | Times flight =>
      "   Departure: " ++ show_text (departure_time flight)
      ++ " | Arrival: " ++ show_text (arrival_time flight) ++ nl
  | Duration minutes => "   Duration: " ++ _format_duration minutes ++ nl
  | Seats flight =>
      "   Available Seats: " ++ show_int (available_seats flight) ++ nl ++ nl
  | Recommend best =>
      "ðŸ’¡ Recommendation: " ++ airline best ++ " offers the best "
  | Word by_price => if by_price then "price" else "duration"
  | Closing => " for this route." ++ nl
  end.

Definition _format_flight_output (flights : list Flight) : result string :=
  match flights with
  | [] => Ok "No flights found for this route."
  | best :: _ =>
      pieces <- report best flights ;;
      Ok (concat_str (map render pieces))
  end.

(** [_run] on the dataset the tool has loaded. *)
Definition _run (flights_data : list Flight)
    (source destination sort_by : string) : string :=
  let matching_flights := _filter_flights flights_data source destination in
  match matching_flights with
  | [] =>
      "No direct flights found from " ++ source ++ " to " ++ destination ++ ". "
      ++ "Please try different cities or check spelling."
  | _ :: _ =>
      let sorted_flights := _sort_flights matching_flights sort_by in
      match _format_flight_output sorted_flights with
      | Ok text => text
      | Raise e => "Error searching flights: " ++ str_exn e
      end
  end.

End Report.

(** ** Specification predicate *)

(** A text of digits and minus signs, as an integer is written. *)
Definition is_num (c : ascii) : bool := is_digit c || Ascii.eqb c "-".

Fixpoint numeric (s : string) : bool :=
  match s with
  | EmptyString => true
  | String c r => is_num c && numeric r
  end.

(** ** Sample data: the five flights of [_get_sample_flights] *)

Definition sample_flights : list Flight :=
  [mkFlight "6E-123" "IndiGo" (Some "Delhi") (Some "Goa") (Some 150) (Some 4800);
   mkFlight "SG-456" "SpiceJet" (Some "Delhi") (Some "Goa") (Some 165) (Some 5200);
   mkFlight "AI-789" "Air India" (Some "Mumbai") (Some "Bangalore")
            (Some 90) (Some 3500);
   mkFlight "UK-321" "Vistara" (Some "Bangalore") (Some "Delhi")
            (Some 180) (Some 6500);
   mkFlight "6E-234" "IndiGo" (Some "Delhi") (Some "Mumbai")
            (Some 135) (Some 4200)].

(** A dataset with one flight, and one whose flight has no price. *)
Definition one_flight : list Flight :=
  [mkFlight "6E-123" "IndiGo" (Some "Delhi") (Some "Goa") (Some 150) (Some 4800)].

Definition unpriced_flight : list Flight :=
  [mkFlight "6E-123" "IndiGo" (Some "Delhi") (Some "Goa") (Some 150) None].

Definition no_text (flight : Flight) : option string := None.
Definition no_number (flight : Flight) : option Z := None.

End FlightReport.

(* ================================================================== *)
(** * [HybridTravelAgent]: the other tools and the choice of a model *)
(* ================================================================== *)

Module AgentTools.
Import Py Json TravelAgent.

(** [json.dumps({"status": "error"})], the answer of every bare
    [except]. *)
Definition error_answer : json := JObj [("status", JStr "error")].

(** [_weather_lookup] and [_places_search]: like [_hotel_search], the
    body of the [try] does not read the input. *)
Definition _weather_lookup (input_str : string) : json :=
  JObj [("forecast",
         JArr [JObj [("day", JNum 1); ("condition", JStr "Sunny");
                     ("temp", JNum 31)];
               JObj [("day", JNum 2); ("condition", JStr "Clear");
                     ("temp", JNum 30)]])].

Definition _places_search (input_str : string) : json :=
  JObj [("places",
         JArr [JObj [("name", JStr "Baga Beach"); ("type", JStr "Beach");
                     ("rating", JNum 4.6%Q)];
               JObj [("name", JStr "Fort Aguada"); ("type", JStr "Heritage");
                     ("rating", JNum 4.5%Q)]])].

(** [params.get(key, default)] for a key that is missing or holds a
    number.  [None] stands for a value of another kind (text, list,
    boolean, null), on which Python's [*] and [+] are not modelled. *)
Definition number_or (key : string) (default : Q)
    (fields : list (string * json)) : option Q :=
  match lookup key fields with
  | None => Some default
  | Some (JNum q) => Some q
  | Some _ => None
  end.

Section Decoder.

(** [json.loads]: the decoded value, or the exception for text that is
    not JSON. *)
Variable json_loads : string -> result json.

Definition _flight_search (input_str : string) : json :=
  match json_loads input_str with
  | Ok params =>
      JObj [("status", JStr "success");
            ("flights",
             JArr [JObj [("airline", JStr "IndiGo");
                         ("price", JNum 4800);
                         ("departure", JStr "14:00");
                         ("duration", JStr "2h 30m")]])]
  | Raise _ => error_answer
  end.

(** [_budget_calculator].  A decoded value that is not a dictionary has
    no [get], which raises inside the [try].  The result is [None] where
    a key holds something that is not a number (see [number_or]). *)
Definition _budget_calculator (input_str : string) : option json :=
  match json_loads input_str with
  | Ok (JObj params) =>
      match number_or "flight_price" 4800 params,
            number_or "hotel_price" 3200 params,
            number_or "nights" 3 params,
            number_or "daily_expense" 800 params with
      | Some flight, Some hotel, Some nights, Some daily =>
          let total := (flight + (hotel * nights) + (daily * nights))%Q in
          Some (JObj [("breakdown",
                       JObj [("flight", JNum flight);
                             ("hotel", JNum (hotel * nights)%Q);
                             ("daily", JNum (daily * nights)%Q);
                             ("total", JNum total)])])
      | _, _, _, _ => None
      end
  | Ok _ => Some error_answer
  | Raise _ => Some error_answer
  end.

End Decoder.

(** The number under [key] in the breakdown of a calculator answer. *)
Definition breakdown_field (key : string) (answer : option json) : option Q :=
  match answer with
  | Some (JObj fields) =>
      match lookup "breakdown" fields with
      | Some breakdown => number_field key breakdown
      | None => None
      end
  | _ => None
  end.

(** A decoder for the samples: it knows the text [nights7], which stands
    for [{"nights": 7}], and rejects everything else. *)
Definition sample_loads (input_str : string) : result json :=
  if String.eqb input_str "nights7"
  then Ok (JObj [("nights", JNum 7)])
  else Raise (ValueError "Expecting value: line 1 column 1 (char 0)").

End AgentTools.

Module Detector.
Import Py TravelAgent.

Section Detect.

(** The services and libraries that the constructor consults.
    - [LLM] is the type of a model handle;
    - [requests_import] and [ollama_import] tell whether [requests] and
      the Ollama class import;
    - [ollama_tags] is the answer of the local service: its status code
      and, read from its body, the model list, each entry giving its
      name or raising; or the exception of the request or of the body;
    - [make_ollama name temperature] is [Ollama(model=name,
      temperature=temperature)];
    - [google_api_key] is [os.getenv("GOOGLE_API_KEY")];
    - [gemini_import] and [make_gemini key temperature] are the Gemini
      class and its constructor;
    - [build_executor llm] is the executor that [_create_agent] builds
      around a model, or the exception of the libraries it calls. *)
Variable LLM : Type.
Variable requests_import : bool.
Variable ollama_tags : result (Z * result (list (result string))).
Variable ollama_import : bool.
Variable make_ollama : string -> Q -> result LLM.
Variable google_api_key : option string.
Variable gemini_import : bool.
Variable make_gemini : string -> Q -> result LLM.
Variable build_executor : LLM -> result (string -> result string).

Variable temperature : Q.

(** [_try_ollama] returns a model with the tag ["ollama"], or the pair
    [(None, None)], for which [None] stands here; every exception ends
    in [return None, None]. *)
Definition _try_ollama : option (LLM * string) :=
  if negb requests_import then None
  else
    match ollama_tags with
    | Ok (status_code, body) =>
        if status_code =? 200 then
          if negb ollama_import then None
          else
            match body with
            | Ok [] => None
            | Ok (Ok model_name :: _) =>
                match make_ollama model_name temperature with
                | Ok llm => Some (llm, "ollama")
                | Raise _ => None
                end
            | Ok (Raise _ :: _) => None
            | Raise _ => None
            end
        else None
    | Raise _ => None
    end.

(** [_try_gemini], likewise; [if not api_key] also rejects the empty
    text. *)
Definition _try_gemini : option (LLM * string) :=
  match google_api_key with
  | None => None
  | Some EmptyString => None
  | Some api_key =>
      if negb gemini_import then None
      else
        match make_gemini api_key temperature with
        | Ok llm => Some (llm, "gemini")
        | Raise _ => None
        end
  end.

Definition _auto_initialize_llm : option LLM * string :=
  match _try_ollama with
  | Some (llm, provider) => (Some llm, provider)
  | None =>
      match _try_gemini with
      | Some (llm, provider) => (Some llm, provider)
      | None => (None, "demo")
      end
  end.

(** [_create_agent]: no executor without a model. *)
Definition _create_agent (llm : option LLM)
  : result (option (string -> result string)) :=
  match llm with
  | None => Ok None
  | Some model =>
      match build_executor model with
      | Ok executor => Ok (Some executor)
      | Raise e => Raise e
      end
  end.

(** [__init__], as far as [plan_trip] reads the object. *)
Definition init : result HybridTravelAgent :=
  let (llm, provider) := _auto_initialize_llm in
  executor <- _create_agent llm ;;
  Ok (mkAgent provider executor).

End Detect.

(** ** Sample surroundings *)

(** The local service refuses the connection. *)
Definition refused : result (Z * result (list (result string))) :=
  Raise (RequestException "Connection refused").

(** The local service lists one model. *)
Definition one_model : result (Z * result (list (result string))) :=
  Ok (200, Ok [Ok "llama3.2"]).

(** A constructor that always returns a handle. *)
Definition handle (name : string) (temperature : Q) : result unit := Ok tt.

(** An executor that raises on every query. *)
Definition timing_out (query : string) : result string :=
  Raise (OtherError "model timeout").

Definition build_timing_out (llm : unit) : result (string -> result string) :=
  Ok timing_out.

End Detector.

(* ================================================================== *)
(** * The page: what the plan button does (app.py) *)
(* ================================================================== *)

Module App.
Import Py TravelAgent.

(** [d.strftime("%Y-%m-%d")], for the years from 1000 on that the form
    offers (its earliest date is today); for an earlier year the C
    library decides about leading zeros. *)
Definition strftime_ymd (d : date) : string :=
  str_int (year d) ++ "-" ++ Weather.two_digits (month d)
  ++ "-" ++ Weather.two_digits (day d).

(** [a <= b] on dates: by year, then month, then day. *)
Definition date_leb (a b : date) : bool :=
  (year a <? year b)
  || ((year a =? year b)
      && ((month a <? month b)
          || ((month a =? month b) && (day a <=? day b)))).

(** What the page shows, one constructor per Streamlit call. *)
Inductive Shown : Type :=
  | ErrorBox (text : string)
  | InfoBox (text : string)
  | SuccessBox (text : string)
  | Markdown (text : string)
  | Subheader (text : string).

Definition is_error_box (s : Shown) : bool :=
  match s with ErrorBox _ => true | _ => false end.

(** The body of [if st.button(...)].  [construct] is the outcome of
    [HybridTravelAgent(temperature=..., verbose=...)].  No result of
    [plan_trip] has the key [intermediate_steps], so the expander for the
    reasoning steps is never shown and [verbose] plays no part. *)
Definition on_plan (construct : result HybridTravelAgent)
    (source destination : string) (start_date end_date : date)
    (budget : Z) (preferences : string) : list Shown :=
  if String.eqb source "" || String.eqb destination "" then
    [ErrorBox "Please fill in source and destination cities!"]
  else if date_leb end_date start_date then
    [ErrorBox "End date must be after start date!"]
  else
    match construct with
    | Raise e =>
        [ErrorBox ("Failed to initialize agent: " ++ str_exn e);
         InfoBox "Make sure your API key is set in the environment or install Ollama locally."]
    | Ok agent =>
        match plan_trip agent source destination
                (strftime_ymd start_date) (strftime_ymd end_date)
                (if 0 <? budget then Some budget else None)
                (if String.eqb preferences "" then None else Some preferences)
        with
        | Ok (PlanSuccess _ text) =>
            [SuccessBox "✅ Trip planning completed!";
             Markdown "---";
             Subheader "📅 Your Trip Itinerary";
             Markdown text]
        | Ok (PlanError _ msg) => [ErrorBox ("❌ Error: " ++ msg)]
        | Raise e =>
            [ErrorBox ("An error occurred: " ++ str_exn e)]
            ++ (if contains "API" (str_exn e) || contains "key" (lower (str_exn e))
                then [InfoBox "Please check your API key configuration or install Ollama locally."]
                else [])
        end
    end.

End App.

(* ================================================================== *)
(** * Properties *)
(* ================================================================== *)

(** ** The model on sample inputs *)

Section Samples.
Import Py TravelAgent FlightSearch.

Example strptime_plain : strptime "2024-03-01" = Ok (mkDate 2024 3 1).
Proof. reflexivity. Qed.

Example strptime_short_fields : strptime "2024-3-4" = Ok (mkDate 2024 3 4).
Proof. reflexivity. Qed.

Example strptime_no_such_day :
  strptime "2023-02-29" = Raise (ValueError "date value out of range").
Proof. reflexivity. Qed.

Example strptime_left_over :
  strptime "2024-03-011" = Raise (ValueError "unconverted data remains").
Proof. reflexivity. Qed.

Example ordinal_of_2024_03_01 : toordinal (mkDate 2024 3 1) = 738946.
Proof. reflexivity. Qed.

Example fmt_comma_total : fmt_comma 20800 = "20,800".
Proof. reflexivity. Qed.

Example fmt_comma_negative : fmt_comma (-1234567) = "-1,234,567".
Proof. reflexivity. Qed.

Example four_days : trip_days (mkDate 2024 3 1) (mkDate 2024 3 4) = 4.
Proof. reflexivity. Qed.

Example seventh_day_theme :
  demo_day_line 6 = nl ++ "   Day 7: Heritage sites & local culture".
Proof. reflexivity. Qed.

Example strip_lower_query : strip (lower "  DeLhi ") = "delhi".
Proof. reflexivity. Qed.

Example sorted_ties_keep_order :
  sorted snd [("a", 5); ("b", 3); ("c", 5); ("d", 3)]
  = [("b", 3); ("d", 3); ("a", 5); ("c", 5)].
Proof. reflexivity. Qed.

End Samples.

(** ** Text lemmas *)

Section TextFacts.
Import Py.

Lemma append_assoc (a b c : string) : (a ++ b) ++ c = a ++ (b ++ c).
Proof.
  induction a as [|x a IH]; simpl; [reflexivity | now rewrite IH].
Qed.

Lemma append_cons_not_empty (a : string) (c : ascii) (r : string) :
  a ++ String c r <> "".
Proof.
  destruct a; simpl; discriminate.
Qed.

Lemma fold_append {A : Type} (f : A -> string) (l : list A) (init : string) :
  fold_left (fun text i => text ++ f i) l init = init ++ concat_str (map f l).
Proof.
  revert init; induction l as [|x l IH]; intros init; simpl.
  - induction init as [|c init IHi]; simpl; [reflexivity | now rewrite <- IHi].
  - rewrite IH. apply append_assoc.
Qed.

Lemma prefixb_app (p s : string) : prefixb p (p ++ s) = true.
Proof.
  induction p as [|c p IH]; simpl; [reflexivity |].
  now rewrite Ascii.eqb_refl, IH.
Qed.

Lemma contains_here (p s : string) : prefixb p s = true -> contains p s = true.
Proof.
  intros H. destruct s; simpl; rewrite H; reflexivity.
Qed.

Lemma contains_app (p pre suf : string) : contains p (pre ++ p ++ suf) = true.
Proof.
  induction pre as [|c pre IH]; simpl.
  - apply contains_here, prefixb_app.
  - rewrite IH. apply orb_true_r.
Qed.

End TextFacts.

(** ** [plan_trip] in demo mode *)

Section DemoPlan.
Import Py Json TravelAgent.

Lemma demo_itinerary_not_empty (source dest : string) (days : Z) :
  demo_itinerary source dest days <> "".
Proof.
  unfold demo_itinerary, demo_budget, nl. simpl.
  apply append_cons_not_empty.
Qed.

Lemma demo_itinerary_states_total (source dest : string) (days : Z) :
  states_total (demo_itinerary source dest days) (demo_total days).
Proof.
  unfold states_total, demo_itinerary, demo_budget.
  exists (fold_left (fun text i => text ++ demo_day_line i)
            (seq 0 (Z.to_nat days)) (demo_header source dest days) ++ nl ++ nl).
  eexists.
  rewrite !append_assoc. reflexivity.
Qed.

Lemma plan_trip_demo (self : HybridTravelAgent)
    (source dest start end_ : string) (budget : option Z)
    (preferences : option string) :
  provider self = "demo" ->
  plan_trip self source dest start end_ budget preferences
  = _demo_plan_trip source dest start end_ budget.
Proof.
  intros H. unfold plan_trip. rewrite H. reflexivity.
Qed.

(** C1, as the code has it: for a request whose two dates parse and whose
    end date is strictly after its start date, [plan_trip] in demo mode
    returns status success from provider "demo" with a non-empty
    itinerary, and the budget line of the itinerary states
    4800 + 3200 * days + 800 * days, where days = (end - start) + 1
    counts both the first and the last day. *)
Theorem demo_plan_trip_total :
  forall (self : HybridTravelAgent) (source dest start end_ : string)
         (budget : option Z) (preferences : option string) (s e : date),
    provider self = "demo" ->
    strptime start = Ok s ->
    strptime end_ = Ok e ->
    toordinal s < toordinal e ->
    exists text,
      plan_trip self source dest start end_ budget preferences
      = Ok (PlanSuccess "demo" text)
      /\ text <> ""
      /\ states_total text
           (let days := toordinal e - toordinal s + 1 in
            4800 + 3200 * days + 800 * days).
Proof.
  intros self source dest start end_ budget preferences s e Hdemo Hs He _.
  rewrite (plan_trip_demo _ _ _ _ _ _ _ Hdemo).
  unfold _demo_plan_trip. rewrite Hs, He. simpl.
  eexists. split; [reflexivity |].
  split; [apply demo_itinerary_not_empty |].
  apply demo_itinerary_states_total.
Qed.

Lemma demo_plan_trip_total_witness :
  exists text,
    plan_trip demo_agent "Delhi" "Goa" "2024-03-01" "2024-03-04"
              (Some 20000) None
    = Ok (PlanSuccess "demo" text)
    /\ text <> ""
    /\ states_total text 20800.
Proof.
  apply (demo_plan_trip_total demo_agent "Delhi" "Goa" "2024-03-01"
           "2024-03-04" (Some 20000) None
           (mkDate 2024 3 1) (mkDate 2024 3 4)).
  - reflexivity.
  - reflexivity.
  - reflexivity.
  - vm_compute. reflexivity.
Defined.

(** C1 as stated fails: from 2024-03-01 to 2024-03-04 there are three
    nights, for which the claim gives 4800 + 3200 * 3 + 800 * 3 = 16800,
    but the itinerary states 20800. *)
Lemma demo_plan_trip_total_counterexample :
  exists s e text,
    strptime "2024-03-01" = Ok s
    /\ strptime "2024-03-04" = Ok e
    /\ toordinal s < toordinal e
    /\ plan_trip demo_agent "Delhi" "Goa" "2024-03-01" "2024-03-04"
                 (Some 20000) None
       = Ok (PlanSuccess "demo" text)
    /\ (let nights := Z.max 1 (toordinal e - toordinal s) in
        ~ states_total text (4800 + 3200 * nights + 800 * nights))
    /\ states_total text 20800.
Proof.
  exists (mkDate 2024 3 1), (mkDate 2024 3 4).
  exists (demo_itinerary "Delhi" "Goa" 4).
  split; [reflexivity |].
  split; [reflexivity |].
  split; [vm_compute; reflexivity |].
  split; [vm_compute; reflexivity |].
  split.
  - cbv zeta. intros [pre [suf H]].
    match type of H with
    | _ = _ ++ budget_line ?t ++ _ =>
        pose proof (contains_app (budget_line t) pre suf) as Hc
    end.
    rewrite <- H in Hc. vm_compute in Hc. discriminate Hc.
  - apply (demo_itinerary_states_total "Delhi" "Goa" 4).
Qed.

(** C10: in demo mode the answer of [plan_trip], result or exception, is
    the same for any two budgets and any two preference texts. *)
Theorem demo_plan_trip_ignores_budget :
  forall (self : HybridTravelAgent) (source dest start end_ : string)
         (budget1 budget2 : option Z) (preferences1 preferences2 : option string),
    provider self = "demo" ->
    plan_trip self source dest start end_ budget1 preferences1
    = plan_trip self source dest start end_ budget2 preferences2.
Proof.
  intros self source dest start end_ b1 b2 p1 p2 Hdemo.
  rewrite !(plan_trip_demo _ _ _ _ _ _ _ Hdemo).
  reflexivity.
Qed.

Lemma demo_plan_trip_ignores_budget_witness :
  plan_trip demo_agent "Delhi" "Goa" "2024-03-01" "2024-03-04"
            (Some 20000) None
  = plan_trip demo_agent "Delhi" "Goa" "2024-03-01" "2024-03-04"
              (Some 500) (Some "beach").
Proof.
  apply (demo_plan_trip_ignores_budget demo_agent). reflexivity.
Defined.

End DemoPlan.

(** ** [plan_trip]: results and exceptions *)

Section PlanResults.
Import Py Json TravelAgent.

(** C3, as the code has it: when both date strings parse, [plan_trip]
    returns a result that carries the provider of the agent and is either
    a success with an itinerary or an error with a message, in demo mode
    and with a reasoning engine alike; a date string that [strptime]
    rejects makes [plan_trip] raise that [ValueError] to its caller. *)
Theorem plan_trip_returns_result :
  forall (self : HybridTravelAgent) (source destination start_date end_date : string)
         (budget : option Z) (preferences : option string),
    match strptime start_date, strptime end_date with
    | Ok _, Ok _ =>
        exists r,
          plan_trip self source destination start_date end_date
                    budget preferences = Ok r
          /\ result_provider r = provider self
          /\ ((status r = success /\ exists text, itinerary r = Some text)
              \/ (status r = error /\ exists msg, message r = Some msg))
    | Ok _, Raise e =>
        plan_trip self source destination start_date end_date
                  budget preferences = Raise e
    | Raise e, _ =>
        plan_trip self source destination start_date end_date
                  budget preferences = Raise e
    end.
Proof.
  intros self source destination start_date end_date budget preferences.
  unfold plan_trip, _demo_plan_trip.
  destruct (String.eqb (provider self) "demo") eqn:Hmode.
  - apply String.eqb_eq in Hmode.
    destruct (strptime start_date) as [s|e1]; simpl;
      [destruct (strptime end_date) as [e|e2]; simpl |]; try reflexivity.
    eexists. split; [reflexivity |].
    split; [simpl; now rewrite Hmode |].
    left. split; [reflexivity | eexists; reflexivity].
  - destruct (strptime start_date) as [s|e1]; simpl;
      [destruct (strptime end_date) as [e|e2]; simpl |]; try reflexivity.
    destruct (agent self) as [invoke|].
    + destruct (invoke _) as [output|ex].
      * eexists. split; [reflexivity |]. split; [reflexivity |].
        left. split; [reflexivity | eexists; reflexivity].
      * eexists. split; [reflexivity |]. split; [reflexivity |].
        right. split; [reflexivity | eexists; reflexivity].
    + eexists. split; [reflexivity |]. split; [reflexivity |].
      right. split; [reflexivity | eexists; reflexivity].
Qed.

(** C3 as stated fails: a start date written 01/03/2024 makes
    [plan_trip] raise [ValueError]; no result is returned. *)
Lemma plan_trip_returns_result_counterexample :
  plan_trip demo_agent "Delhi" "Goa" "01/03/2024" "2024-03-04" None None
  = Raise (ValueError "time data does not match format '%Y-%m-%d'")
  /\ ~ (exists r,
          plan_trip demo_agent "Delhi" "Goa" "01/03/2024" "2024-03-04" None None
          = Ok r).
Proof.
  split; [reflexivity |].
  intros [r H]. discriminate H.
Qed.

End PlanResults.

(** ** Hotel search *)

Section HotelSearch.
Import Py Json TravelAgent.

(** C2, as the code has it: whatever its input, the hotel tool answers
    with status success and the one fixed hotel, rated 4.5 at 3200 a
    night; it applies no rating or price bound. *)
Theorem hotel_search_fixed :
  forall input_str : string,
    _hotel_search input_str
    = JObj [("status", JStr "success"); ("hotels", JArr [sea_view_resort])]
    /\ hotels_of (_hotel_search input_str) = [sea_view_resort]
    /\ number_field "rating" sea_view_resort = Some 4.5%Q
    /\ number_field "price_per_night" sea_view_resort = Some 3200%Q.
Proof.
  intros input_str. repeat split.
Qed.

(** C2 as stated fails: for city Goa, minimum rating 4.0 and maximum
    price 3000 the filter of the specification leaves nothing of the
    one-hotel dataset, but the tool returns that hotel. *)
Lemma hotel_search_counterexample :
  hotel_filter_spec (Some 4.0%Q) (Some 3000%Q) [sea_view_resort] = []
  /\ hotels_of (_hotel_search goa_query) = [sea_view_resort]
  /\ hotels_of (_hotel_search goa_query)
     <> hotel_filter_spec (Some 4.0%Q) (Some 3000%Q) [sea_view_resort].
Proof.
  split; [reflexivity |].
  split; [reflexivity |].
  discriminate.
Qed.

End HotelSearch.

(** ** Flight search: matching *)

Section FlightMatching.
Import Py FlightSearch.

(** C5, as the code has it: a record of the dataset is returned exactly
    when its source and destination, lower-cased but not trimmed, equal
    the requested source and destination lower-cased and trimmed; a
    missing field reads as the empty text. *)
Theorem filter_flights_matches :
  forall (flights_data : list Flight) (source destination : string)
         (flight : Flight),
    In flight (_filter_flights flights_data source destination)
    <-> In flight flights_data
        /\ lower (get (FlightSearch.source flight) "") = strip (lower source)
        /\ lower (get (FlightSearch.destination flight) "")
           = strip (lower destination).
Proof.
  intros flights_data source destination flight.
  unfold _filter_flights, flight_matches.
  rewrite filter_In, andb_true_iff, !String.eqb_eq.
  reflexivity.
Qed.

(** C5 as stated fails: a record whose source is written with a leading
    space matches the query Delhi to Goa once both sides are trimmed, but
    the tool does not return it. *)
Lemma filter_flights_counterexample :
  let flight := mkFlight "6E-123" "IndiGo" (Some " Delhi") (Some "Goa")
                         (Some 150) (Some 4800) in
  matches_spec "Delhi" "Goa" flight = true
  /\ _filter_flights [flight] "Delhi" "Goa" = [].
Proof.
  split; reflexivity.
Qed.

End FlightMatching.

(** ** Flight search: sorting *)

Section Sorting.
Import Py FlightSearch.

Context {A : Type}.
Variable key : A -> Z.

Lemma insert_by_perm (x : A) (l : list A) :
  Permutation (insert_by key x l) (x :: l).
Proof.
  induction l as [|y r IH]; simpl.
  - apply Permutation_refl.
  - destruct (key x <=? key y).
    + apply Permutation_refl.
    + apply perm_trans with (y :: x :: r).
      * now apply perm_skip.
      * apply perm_swap.
Qed.

Lemma sorted_perm (l : list A) : Permutation (sorted key l) l.
Proof.
  induction l as [|x r IH]; simpl.
  - apply perm_nil.
  - apply perm_trans with (x :: sorted key r).
    + apply insert_by_perm.
    + now apply perm_skip.
Qed.

Lemma insert_by_sorted (x : A) (l : list A) :
  StronglySorted (key_le key) l -> StronglySorted (key_le key) (insert_by key x l).
Proof.
  induction l as [|y r IH]; intros Hs; simpl.
  - constructor; constructor.
  - inversion Hs as [|? ? Hr Hy]; subst.
    destruct (key x <=? key y) eqn:Hxy.
    + apply Z.leb_le in Hxy.
      constructor; [exact Hs |].
      constructor; [exact Hxy |].
      eapply Forall_impl; [| exact Hy].
      intros z Hz. unfold key_le in *. lia.
    + apply Z.leb_gt in Hxy.
      constructor; [now apply IH |].
      eapply Permutation_Forall.
      * apply Permutation_sym, insert_by_perm.
      * constructor; [unfold key_le; lia | exact Hy].
Qed.

Lemma sorted_is_sorted (l : list A) : StronglySorted (key_le key) (sorted key l).
Proof.
  induction l as [|x r IH]; simpl.
  - constructor.
  - now apply insert_by_sorted.
Qed.

(** Inserting [x] touches the elements of key [k] only by putting [x]
    in front of them, when [x] has that key. *)
Lemma insert_by_filter (k : Z) (x : A) (l : list A) :
  StronglySorted (key_le key) l ->
  filter (has_key key k) (insert_by key x l) = filter (has_key key k) (x :: l).
Proof.
  induction l as [|y r IH]; intros Hs; simpl.
  - reflexivity.
  - inversion Hs as [|? ? Hr Hy]; subst.
    destruct (key x <=? key y) eqn:Hxy; [reflexivity |].
    apply Z.leb_gt in Hxy.
    simpl. rewrite (IH Hr). simpl.
    unfold has_key.
    destruct (key x =? k) eqn:Hx; destruct (key y =? k) eqn:Hyk;
      try reflexivity.
    apply Z.eqb_eq in Hx. apply Z.eqb_eq in Hyk. lia.
Qed.

Lemma sorted_stable (k : Z) (l : list A) :
  filter (has_key key k) (sorted key l) = filter (has_key key k) l.
Proof.
  induction l as [|x r IH]; simpl.
  - reflexivity.
  - rewrite insert_by_filter by apply sorted_is_sorted.
    simpl. now rewrite IH.
Qed.

End Sorting.

Section SortFlights.
Import Py FlightSearch.

Lemma StronglySorted_impl {A : Type} (R R' : A -> A -> Prop) (l : list A) :
  (forall a b, R a b -> R' a b) ->
  StronglySorted R l -> StronglySorted R' l.
Proof.
  intros Himp Hs. induction Hs as [|x l Hs IH Hx]; constructor.
  - exact IH.
  - eapply Forall_impl; [| exact Hx]. intros b. apply Himp.
Qed.

Lemma price_key_field_le (a b : Flight) :
  key_le price_key a b -> field_le price 999999 a b.
Proof.
  unfold key_le, price_key, field_le, get.
  destruct (price a); destruct (price b); auto.
Qed.

Lemma duration_key_field_le (a b : Flight) :
  key_le duration_key a b -> field_le duration_minutes 999 a b.
Proof.
  unfold key_le, duration_key, field_le, get.
  destruct (duration_minutes a); destruct (duration_minutes b); auto.
Qed.

Lemma price_key_field_is (k : Z) (x : Flight) :
  field_is price 999999 k x = has_key price_key k x.
Proof.
  unfold field_is, has_key, price_key, get. now destruct (price x).
Qed.

Lemma duration_key_field_is (k : Z) (x : Flight) :
  field_is duration_minutes 999 k x = has_key duration_key k x.
Proof.
  unfold field_is, has_key, duration_key, get.
  now destruct (duration_minutes x).
Qed.

(** C6: with [sort_by] "price" the output of [_sort_flights] is a
    rearrangement of its input in which the [price] field never
    decreases from a flight to any later one, and with "duration" one in
    which the [duration_minutes] field never decreases; a record without
    the field stands where a price of 999999, or a duration of 999
    minutes, would.  In both, the flights that tie at any one value of
    the field come out in the order they came in. *)
Theorem sort_flights_sorted_stable :
  forall flights : list Flight,
    (StronglySorted (field_le price 999999) (_sort_flights flights "price")
     /\ Permutation (_sort_flights flights "price") flights
     /\ forall k : Z,
          filter (field_is price 999999 k) (_sort_flights flights "price")
          = filter (field_is price 999999 k) flights)
    /\
    (StronglySorted (field_le duration_minutes 999)
                    (_sort_flights flights "duration")
     /\ Permutation (_sort_flights flights "duration") flights
     /\ forall k : Z,
          filter (field_is duration_minutes 999 k)
                 (_sort_flights flights "duration")
          = filter (field_is duration_minutes 999 k) flights).
Proof.
  intros flights. unfold _sort_flights. simpl.
  split; (split; [| split; [apply sorted_perm | intros k]]).
  - apply (StronglySorted_impl _ _ _ price_key_field_le), sorted_is_sorted.
  - rewrite !(filter_ext _ _ (price_key_field_is k)). apply sorted_stable.
  - apply (StronglySorted_impl _ _ _ duration_key_field_le), sorted_is_sorted.
  - rewrite !(filter_ext _ _ (duration_key_field_is k)). apply sorted_stable.
Qed.

End SortFlights.

(** ** Data loader: shapes of the document *)

Section LoaderShapes.
Import Py Json Functools Loader.

Lemma load_json_miss (fs : FileSystem) (self : DataLoader) (filename : string)
    (st : State) (data : json) :
  cache_get key_eqb (ident self, filename) (cache st) = None ->
  fs (path_join (data_path self) filename) = Parsed data ->
  load_json fs self filename st
  = (Ok (select data),
     mkState (cache_store maxsize (ident self, filename) (select data) (cache st))
             (opened st ++ [path_join (data_path self) filename])).
Proof.
  intros Hmiss Hfile. unfold load_json, load_json_body.
  rewrite Hmiss, Hfile. reflexivity.
Qed.

(** C4, as the code has it: loading a file that is not yet in the store
    and decodes to [data] returns [data] itself when it is an array; for
    an object, the value under the first of the keys flights, hotels,
    places, data that it has, and the one-element list holding the object
    when it has none of them; and the empty list for any other document
    (text, number, boolean, null). *)
Theorem load_json_shapes :
  forall (fs : FileSystem) (self : DataLoader) (filename : string)
         (st : State) (data : json),
    cache_get key_eqb (ident self, filename) (cache st) = None ->
    fs (path_join (data_path self) filename) = Parsed data ->
    fst (load_json fs self filename st)
    = Ok (match data with
          | JArr _ => data
          | JObj fields =>
              match lookup "flights" fields with
              | Some v => v
              | None =>
                  match lookup "hotels" fields with
                  | Some v => v
                  | None =>
                      match lookup "places" fields with
                      | Some v => v
                      | None =>
                          match lookup "data" fields with
                          | Some v => v
                          | None => JArr [data]
                          end
                      end
                  end
              end
          | JNull | JBool _ | JNum _ | JStr _ => JArr []
          end).
Proof.
  intros fs self filename st data Hmiss Hfile.
  rewrite (load_json_miss _ _ _ _ _ Hmiss Hfile). simpl.
  destruct data as [| b | q | s | items | fields]; try reflexivity.
  unfold select, common_keys. simpl.
  destruct (lookup "flights" fields); [reflexivity |].
  destruct (lookup "hotels" fields); [reflexivity |].
  destruct (lookup "places" fields); [reflexivity |].
  destruct (lookup "data" fields); reflexivity.
Qed.

Lemma load_json_shapes_witness :
  fst (load_json fs_single sample_loader "hotels.json" fresh)
  = Ok (JArr [JObj [("name", JStr "Taj")]]).
Proof.
  apply (load_json_shapes fs_single sample_loader "hotels.json" fresh
           (JObj [("name", JStr "Taj")])); reflexivity.
Defined.

(** C4 as stated fails: an object with none of the four keys is a shape
    other than the two the claim accepts, yet loading it yields a
    collection of one element, not the empty one. *)
Lemma load_json_shapes_counterexample :
  fs_single "data/hotels.json" = Parsed (JObj [("name", JStr "Taj")])
  /\ fst (load_json fs_single sample_loader "hotels.json" fresh)
     = Ok (JArr [JObj [("name", JStr "Taj")]])
  /\ fst (load_json fs_single sample_loader "hotels.json" fresh)
     <> Ok (JArr []).
Proof.
  split; [reflexivity |].
  split; [reflexivity |].
  discriminate.
Qed.

End LoaderShapes.

(** ** Data loader: the cache *)

Section CacheFacts.
Import Py Json Functools Loader.

Lemma key_eqb_eq (a b : Key) : key_eqb a b = true <-> a = b.
Proof.
  destruct a as [i f], b as [j g]. unfold key_eqb. simpl.
  rewrite andb_true_iff, Nat.eqb_eq, String.eqb_eq.
  split.
  - intros [Hi Hf]. now subst.
  - intros H. inversion H. auto.
Qed.

Lemma key_eqb_neq (a b : Key) : key_eqb a b = false <-> a <> b.
Proof.
  rewrite <- key_eqb_eq. destruct (key_eqb a b); split; congruence.
Qed.

Lemma cache_get_in (c : list (Key * json)) (k : Key) (v : json) :
  cache_get key_eqb k c = Some v -> In k (map fst c).
Proof.
  induction c as [|[k' v'] r IH]; simpl; [discriminate |].
  destruct (key_eqb k' k) eqn:E.
  - apply key_eqb_eq in E. auto.
  - auto.
Qed.

Lemma cache_get_none (c : list (Key * json)) (k : Key) :
  cache_get key_eqb k c = None -> ~ In k (map fst c).
Proof.
  induction c as [|[k' v'] r IH]; simpl; [tauto |].
  destruct (key_eqb k' k) eqn:E; [discriminate |].
  apply key_eqb_neq in E. intros Hn [H | H]; [congruence | now apply IH].
Qed.

Lemma cache_remove_in (c : list (Key * json)) (k k' : Key) :
  In k' (map fst (cache_remove key_eqb k c)) -> In k' (map fst c) /\ k' <> k.
Proof.
  induction c as [|[k1 v1] r IH]; simpl; [tauto |].
  destruct (key_eqb k1 k) eqn:E.
  - intros H. destruct (IH H). auto.
  - apply key_eqb_neq in E. simpl. intros [H | H].
    + subst. auto.
    + destruct (IH H). auto.
Qed.

Lemma cache_remove_nodup (c : list (Key * json)) (k : Key) :
  NoDup (map fst c) -> NoDup (map fst (cache_remove key_eqb k c)).
Proof.
  induction c as [|[k1 v1] r IH]; simpl; intros Hn; [constructor |].
  inversion Hn as [|? ? Hnin Hr]; subst.
  destruct (key_eqb k1 k); [auto |].
  simpl. constructor; [| auto].
  intros Hin. apply cache_remove_in in Hin. tauto.
Qed.

Lemma cache_remove_get (c : list (Key * json)) (k k' : Key) :
  k' <> k ->
  cache_get key_eqb k' (cache_remove key_eqb k c) = cache_get key_eqb k' c.
Proof.
  intros Hne. induction c as [|[k1 v1] r IH]; simpl; [reflexivity |].
  destruct (key_eqb k1 k) eqn:E.
  - apply key_eqb_eq in E. subst k1.
    destruct (key_eqb k k') eqn:E'; [| exact IH].
    apply key_eqb_eq in E'. congruence.
  - simpl. now rewrite IH.
Qed.

(** A hit keeps the store within [S] and keeps every entry. *)
Lemma cache_touch_keeps (S : list Key) (c : list (Key * json))
    (k : Key) (v : json) :
  NoDup (map fst c) -> incl (map fst c) S ->
  cache_get key_eqb k c = Some v ->
  NoDup (map fst (cache_touch key_eqb k v c))
  /\ incl (map fst (cache_touch key_eqb k v c)) S
  /\ forall k0, cache_get key_eqb k0 (cache_touch key_eqb k v c)
                = cache_get key_eqb k0 c.
Proof.
  intros Hn Hi Hget. unfold cache_touch. simpl.
  split; [| split].
  - constructor; [| now apply cache_remove_nodup].
    intros Hin. apply cache_remove_in in Hin. tauto.
  - intros x [Hx | Hx].
    + subst x. apply Hi. eapply cache_get_in, Hget.
    + apply Hi. now apply cache_remove_in in Hx.
  - intros k0. destruct (key_eqb k k0) eqn:E.
    + apply key_eqb_eq in E. subst k0. now rewrite Hget.
    + apply key_eqb_neq in E. apply cache_remove_get. congruence.
Qed.

(** With at most ten keys in use a miss finds room: nothing is dropped. *)
Lemma cache_store_room (S : list Key) (c : list (Key * json))
    (k : Key) (v : json) :
  (length S <= 10)%nat ->
  NoDup (map fst c) -> incl (map fst c) S -> In k S ->
  cache_get key_eqb k c = None ->
  cache_store maxsize k v c = (k, v) :: c.
Proof.
  intros Hlen Hn Hi Hk Hmiss. unfold cache_store, maxsize.
  assert (Hfresh : ~ In k (map fst c)) by now apply cache_get_none.
  assert (Hle : (length (k :: map fst c) <= length S)%nat).
  { apply NoDup_incl_length.
    - now constructor.
    - intros x [Hx | Hx]; [now subst | now apply Hi]. }
  simpl in Hle. rewrite length_map in Hle.
  destruct (10 <=? length c)%nat eqn:E; [| reflexivity].
  apply Nat.leb_le in E. lia.
Qed.

Lemma load_json_keeps (S : list Key) (fs : FileSystem) (self : DataLoader)
    (filename : string) (st : State) :
  (length S <= 10)%nat ->
  cache_within S st ->
  In (ident self, filename) S ->
  cache_within S (snd (load_json fs self filename st))
  /\ forall k0 v0,
       cache_get key_eqb k0 (cache st) = Some v0 ->
       cache_get key_eqb k0 (cache (snd (load_json fs self filename st)))
       = Some v0.
Proof.
  intros Hlen [Hn Hi] Hk. unfold load_json, keys in *.
  destruct (cache_get key_eqb (ident self, filename) (cache st)) as [v|] eqn:Hget.
  - cbn [snd]. unfold cache_within, keys. cbn [cache].
    destruct (cache_touch_keeps S _ _ _ Hn Hi Hget) as [H1 [H2 H3]].
    split; [split; assumption |].
    intros k0 v0 H0. now rewrite H3.
  - destruct (load_json_body fs self filename) as [[v|e] reads];
      cbn [snd]; unfold cache_within, keys; cbn [cache].
    + rewrite (cache_store_room S _ _ v Hlen Hn Hi Hk Hget).
      split; [split |].
      * simpl. constructor; [now apply cache_get_none | exact Hn].
      * intros x [Hx | Hx]; [now subst | now apply Hi].
      * intros k0 v0 H0. simpl.
        destruct (key_eqb (ident self, filename) k0) eqn:E; [| exact H0].
        apply key_eqb_eq in E. subst k0. congruence.
    + split; [split; assumption | auto].
Qed.

Lemma run_keeps (S : list Key) (calls : list Call) :
  (length S <= 10)%nat ->
  (forall c, In c calls -> In (call_key c) S) ->
  forall st : State,
    cache_within S st ->
    cache_within S (run calls st)
    /\ forall k0 v0,
         cache_get key_eqb k0 (cache st) = Some v0 ->
         cache_get key_eqb k0 (cache (run calls st)) = Some v0.
Proof.
  intros Hlen. induction calls as [|[[fs self] filename] r IH];
    intros Hcalls st Hw; simpl.
  - auto.
  - assert (Hk : In (ident self, filename) S)
      by (apply (Hcalls (fs, self, filename)); now left).
    destruct (load_json_keeps S fs self filename st Hlen Hw Hk) as [Hw1 Hkeep1].
    assert (Hr : forall c, In c r -> In (call_key c) S)
      by (intros c Hc; apply Hcalls; now right).
    destruct (IH Hr _ Hw1) as [Hw2 Hkeep2].
    split; [exact Hw2 |].
    intros k0 v0 H0. apply Hkeep2. unfold do_call. simpl. now apply Hkeep1.
Qed.

Lemma load_json_stores (S : list Key) (fs : FileSystem) (self : DataLoader)
    (filename : string) (st st1 : State) (v : json) :
  (length S <= 10)%nat ->
  cache_within S st ->
  In (ident self, filename) S ->
  load_json fs self filename st = (Ok v, st1) ->
  cache_get key_eqb (ident self, filename) (cache st1) = Some v.
Proof.
  intros Hlen [Hn Hi] Hk. unfold load_json, keys in *.
  destruct (cache_get key_eqb (ident self, filename) (cache st)) as [w|] eqn:Hget.
  - intros H. inversion H; subst. cbn [cache cache_touch cache_get].
    now rewrite (proj2 (key_eqb_eq _ _) eq_refl).
  - destruct (load_json_body fs self filename) as [[w|e] reads];
      intros H; inversion H; subst. cbn [cache].
    rewrite (cache_store_room S _ _ v Hlen Hn Hi Hk Hget).
    cbn [cache_get].
    now rewrite (proj2 (key_eqb_eq _ _) eq_refl).
Qed.

Lemma load_json_hit (fs : FileSystem) (self : DataLoader) (filename : string)
    (st : State) (v : json) :
  cache_get key_eqb (ident self, filename) (cache st) = Some v ->
  load_json fs self filename st
  = (Ok v, mkState (cache_touch key_eqb (ident self, filename) v (cache st))
                   (opened st)).
Proof.
  intros H. unfold load_json. now rewrite H.
Qed.

(** C9, as the code has it: while the calls use at most ten distinct
    keys (loader and filename) and the cache is not cleared, a filename
    that was loaded with success stays cached: after any further calls a
    call with the same filename returns the same collection and opens no
    file, whatever the disk then holds. *)
Theorem load_json_cached :
  forall (S : list Key) (fs fs' : FileSystem) (self : DataLoader)
         (filename : string) (st st1 : State) (v : json) (calls : list Call),
    (length S <= 10)%nat ->
    cache_within S st ->
    In (ident self, filename) S ->
    (forall c, In c calls -> In (call_key c) S) ->
    load_json fs self filename st = (Ok v, st1) ->
    fst (load_json fs' self filename (run calls st1)) = Ok v
    /\ opened (snd (load_json fs' self filename (run calls st1)))
       = opened (run calls st1).
Proof.
  intros S fs fs' self filename st st1 v calls Hlen Hw Hk Hcalls Hload.
  assert (Hst1 : cache_within S st1).
  { pose proof (load_json_keeps S fs self filename st Hlen Hw Hk) as [H _].
    now rewrite Hload in H. }
  pose proof (load_json_stores S fs self filename st st1 v Hlen Hw Hk Hload)
    as Hstored.
  destruct (run_keeps S calls Hlen Hcalls st1 Hst1) as [_ Hkeep].
  rewrite (load_json_hit fs' self filename _ v (Hkeep _ _ Hstored)).
  split; reflexivity.
Qed.

Lemma load_json_cached_witness :
  fst (load_json (fun _ => Missing) sample_loader "a.json"
         (run (calls_on fs_arrays sample_loader ["b.json"; "a.json"; "b.json"])
              (snd (load_json fs_arrays sample_loader "a.json" fresh))))
  = Ok (JArr [])
  /\ opened (snd (load_json (fun _ => Missing) sample_loader "a.json"
         (run (calls_on fs_arrays sample_loader ["b.json"; "a.json"; "b.json"])
              (snd (load_json fs_arrays sample_loader "a.json" fresh)))))
     = opened (run (calls_on fs_arrays sample_loader ["b.json"; "a.json"; "b.json"])
                   (snd (load_json fs_arrays sample_loader "a.json" fresh))).
Proof.
  apply (load_json_cached [(0%nat, "a.json"); (0%nat, "b.json")]
           fs_arrays (fun _ => Missing) sample_loader "a.json" fresh).
  - simpl. lia.
  - split; [constructor | intros x Hx; destruct Hx].
  - simpl. auto.
  - simpl. intros c [H | [H | [H | H]]]; try (subst c; simpl; auto).
    destruct H.
  - reflexivity.
Defined.

(** C9 as stated fails: eleven distinct filenames are loaded and then
    the first one again, with no [clear_cache]; the store has dropped the
    first entry to make room for the eleventh, and its file is opened a
    second time. *)
Lemma load_json_cached_counterexample :
  NoDup eleven_files
  /\ length (filter (String.eqb "data/f0.json")
               (opened (run (calls_on fs_arrays sample_loader
                                      (eleven_files ++ ["f0.json"]))
                            fresh)))
     = 2%nat.
Proof.
  split.
  - unfold eleven_files.
    repeat (constructor; [simpl; intuition discriminate |]).
    constructor.
  - vm_compute. reflexivity.
Qed.

End CacheFacts.

(** ** Weather tool *)

Section WeatherFacts.
Import Py Weather.

Variable day_name : string -> result string.
Variable float_sum : list Q -> Q.
Variable float_div : Q -> Z -> Q.

Lemma Qgtb_lt (a b : Q) : Qgtb a b = true <-> (b < a)%Q.
Proof.
  unfold Qgtb. rewrite negb_true_iff. split; intros H.
  - apply Qnot_le_lt. intros Hle. apply Qle_bool_iff in Hle. congruence.
  - apply not_true_is_false. intros Hle. apply Qle_bool_iff in Hle.
    exact (Qlt_not_le _ _ H Hle).
Qed.

Lemma Qgtb_le (a b : Q) : Qgtb a b = false <-> (a <= b)%Q.
Proof.
  unfold Qgtb. rewrite negb_false_iff. apply Qle_bool_iff.
Qed.

Lemma has_tip_app (tip : Line) (a b : list Line) :
  has_tip tip (a ++ b) = has_tip tip a || has_tip tip b.
Proof.
  apply existsb_app.
Qed.

Lemma day_entries_app (a b : list Line) :
  day_entries (a ++ b) = (day_entries a + day_entries b)%nat.
Proof.
  unfold day_entries. now rewrite filter_app, length_app.
Qed.

(** What one round appends: one day head, and no tip. *)
Lemma day_block_shape (daily : Daily) (i : nat) (block : list Line) :
  day_block day_name daily i = Ok block ->
  day_entries block = 1%nat /\ forall tip, has_tip tip block = false.
Proof.
  unfold day_block, index, bind.
  destruct (nth_error (time daily) i); [| discriminate].
  destruct (day_name s); [| discriminate].
  destruct (nth_error (weathercode daily) i); [| discriminate].
  destruct (nth_error (temperature_2m_max daily) i); [| discriminate].
  destruct (nth_error (temperature_2m_min daily) i); [| discriminate].
  intros H. inversion H; subst; clear H.
  destruct (Qgtb _ 0 || Qgtb _ 20); split; try reflexivity;
    intros tip; destruct tip; reflexivity.
Qed.

Lemma day_blocks_shape (daily : Daily) (rounds : list nat) :
  forall blocks : list Line,
    day_blocks day_name daily rounds = Ok blocks ->
    day_entries blocks = length rounds
    /\ forall tip, has_tip tip blocks = false.
Proof.
  induction rounds as [|i r IH]; simpl; intros blocks H.
  - inversion H. split; [reflexivity | intros tip; reflexivity].
  - unfold bind in H.
    destruct (day_block day_name daily i) as [b|] eqn:Hb; [| discriminate].
    destruct (day_blocks day_name daily r) as [rest|] eqn:Hr; [| discriminate].
    inversion H; subst; clear H.
    destruct (day_block_shape _ _ _ Hb) as [Hb1 Hb2].
    destruct (IH _ eq_refl) as [Hr1 Hr2].
    split.
    + rewrite day_entries_app, Hb1, Hr1. reflexivity.
    + intros tip. now rewrite has_tip_app, Hb2, Hr2.
Qed.

(** The lines of a forecast that was formatted: title, day blocks, tips. *)
Lemma format_lines_ok (city_name : string) (daily : Daily) (days : Z)
    (lines : list Line) :
  format_lines day_name float_sum float_div city_name daily days = Ok lines ->
  exists blocks avg,
    day_blocks day_name daily
      (seq 0 (Z.to_nat (Z.min days (Z.of_nat (length (time daily))))))
    = Ok blocks
    /\ avg_temp float_sum float_div daily days = Ok avg
    /\ lines = ([Title city_name] ++ blocks
                ++ travel_tips avg (has_rain daily days))%list.
Proof.
  unfold format_lines, bind.
  destruct (day_blocks day_name daily _) as [blocks|]; [| discriminate].
  destruct (avg_temp float_sum float_div daily days) as [avg|];
    [| discriminate].
  intros H. inversion H. now exists blocks, avg.
Qed.

(** Which tips [travel_tips] holds. *)
Lemma travel_tips_has (avg : Q) (rain : bool) :
  has_tip TipLight (travel_tips avg rain) = Qgtb avg 30
  /\ has_tip TipWarm (travel_tips avg rain)
     = negb (Qgtb avg 30) && Qltb avg 20
  /\ has_tip TipPleasant (travel_tips avg rain)
     = negb (Qgtb avg 30) && negb (Qltb avg 20)
  /\ has_tip TipUmbrella (travel_tips avg rain) = rain.
Proof.
  unfold travel_tips.
  destruct (Qgtb avg 30); destruct (Qltb avg 20); destruct rain;
    repeat split.
Qed.

Lemma window_length {A : Type} (xs : list A) (days : Z) :
  0 <= days <= Z.of_nat (length xs) ->
  Z.of_nat (length (window xs days)) = days.
Proof.
  intros H. unfold window. rewrite length_firstn, Nat.min_l by lia. lia.
Qed.

(** The clothing tips at an average, as comparisons. *)
Lemma travel_tips_thresholds (avg : Q) (rain : bool) :
  (has_tip TipLight (travel_tips avg rain) = true <-> (30 < avg)%Q)
  /\ (has_tip TipWarm (travel_tips avg rain) = true <-> (avg < 20)%Q)
  /\ (has_tip TipPleasant (travel_tips avg rain) = true
      <-> (20 <= avg)%Q /\ (avg <= 30)%Q).
Proof.
  clear day_name float_sum float_div.
  destruct (travel_tips_has avg rain) as [Hl [Hw [Hp _]]].
  rewrite Hl, Hw, Hp.
  split; [apply Qgtb_lt |].
  split.
  - rewrite andb_true_iff, negb_true_iff, Qgtb_le. unfold Qltb.
    fold (Qgtb 20 avg). rewrite Qgtb_lt. split; [tauto | intros H; split; lra].
  - rewrite andb_true_iff, !negb_true_iff, Qgtb_le. unfold Qltb.
    fold (Qgtb 20 avg). rewrite Qgtb_le. tauto.
Qed.

(** C7, as the code has it: for a forecast that formats and a window of
    [days] days that the series covers (1 <= days <= number of highs),
    the advice follows the average high as the code computes it, the
    float sum of the highs of the window divided in float arithmetic by
    [days]: the light-clothing line exactly when that number is above 30
    (exactly 30 gets the pleasant line), the warm-layers line exactly
    when it is below 20, and the pleasant line otherwise; the umbrella
    line is given exactly when some day of the window has more than 5 mm
    of precipitation. *)
Theorem weather_tips :
  forall (city_name : string) (daily : Daily) (days : Z) (lines : list Line),
    1 <= days <= Z.of_nat (length (temperature_2m_max daily)) ->
    format_lines day_name float_sum float_div city_name daily days = Ok lines ->
    let avg :=
      float_div (float_sum (window (temperature_2m_max daily) days)) days in
    (has_tip TipLight lines = true <-> (30 < avg)%Q)
    /\ (has_tip TipWarm lines = true <-> (avg < 20)%Q)
    /\ (has_tip TipPleasant lines = true <-> (20 <= avg)%Q /\ (avg <= 30)%Q)
    /\ (has_tip TipUmbrella lines = true
        <-> exists p, In p (window (precipitation_sum daily) days) /\ (5 < p)%Q).
Proof.
  intros city_name daily days lines Hdays Hfmt avg.
  destruct (format_lines_ok _ _ _ _ Hfmt) as [blocks [avg0 [Hblocks [Havg Hlines]]]].
  destruct (day_blocks_shape _ _ _ Hblocks) as [_ Hnotip].
  assert (Havg0 : avg0 = avg).
  { unfold avg_temp in Havg. cbv zeta in Havg.
    destruct (days =? 0) eqn:E; [apply Z.eqb_eq in E; lia |].
    inversion Havg. unfold avg, slice_to.
    destruct (0 <=? days) eqn:E0; [| apply Z.leb_gt in E0; lia].
    reflexivity. }
  assert (Hrain : has_rain daily days = true
                  <-> exists p, In p (window (precipitation_sum daily) days)
                                /\ (5 < p)%Q).
  { unfold has_rain, slice_to.
    destruct (0 <=? days) eqn:E0; [| apply Z.leb_gt in E0; lia].
    fold (window (precipitation_sum daily) days).
    rewrite existsb_exists.
    split; intros [p [Hin Hp]]; exists p; split; auto; now apply Qgtb_lt. }
  assert (Htips : forall tip,
             has_tip tip lines
             = has_tip tip (travel_tips avg (has_rain daily days))).
  { intros tip. subst lines avg0.
    rewrite !has_tip_app, Hnotip. destruct tip; reflexivity. }
  rewrite !Htips.
  destruct (travel_tips_thresholds avg (has_rain daily days)) as [Hl [Hw Hp]].
  destruct (travel_tips_has avg (has_rain daily days)) as [_ [_ [_ Hu]]].
  split; [exact Hl |]. split; [exact Hw |]. split; [exact Hp |].
  rewrite Hu. exact Hrain.
Qed.

Lemma travel_tips_no_day (avg : Q) (rain : bool) :
  day_entries (travel_tips avg rain) = 0%nat.
Proof.
  unfold travel_tips.
  destruct (Qgtb avg 30); destruct (Qltb avg 20); destruct rain; reflexivity.
Qed.

(** A forecast that formats has one day entry per round of the loop. *)
Lemma format_lines_day_entries (city_name : string) (daily : Daily) (days : Z)
    (lines : list Line) :
  format_lines day_name float_sum float_div city_name daily days = Ok lines ->
  day_entries lines
  = Z.to_nat (Z.min days (Z.of_nat (length (time daily)))).
Proof.
  intros Hfmt.
  destruct (format_lines_ok _ _ _ _ Hfmt) as [blocks [avg [Hblocks [_ Hlines]]]].
  destruct (day_blocks_shape _ _ _ Hblocks) as [Hheads _].
  subst lines.
  rewrite !day_entries_app, Hheads, travel_tips_no_day, length_seq.
  simpl. lia.
Qed.

End WeatherFacts.

Section WeatherRun.
Import Py Weather.

Variable http_get : string -> Params -> result (option Daily).
Variable day_name : string -> result string.
Variable str_num : Q -> string.
Variable float_sum : list Q -> Q.
Variable float_div : Q -> Z -> Q.

(** C8: for every lookup with more than seven days requested, the
    request sent to the forecast service asks for seven days; when the
    service answers with no more days than it was asked for, the tool
    returns a text in every case: a formatted forecast with at most seven
    day entries, or one of its messages.  In particular an exception of
    the formatter (an index out of range, a date that does not parse) ends
    as the text that reports it and does not leave the tool. *)
Theorem weather_days_clamped :
  forall (city : string) (days : Z),
    7 < days ->
    source_honours http_get city days ->
    (forall latitude longitude : Q,
        forecast_days (weather_params latitude longitude days) = 7)
    /\ run_outcome http_get day_name str_num float_sum float_div city days 7.
Proof.
  intros city days Hdays Hsrc.
  assert (Hclamp : forall latitude longitude : Q,
             forecast_days (weather_params latitude longitude days) = 7)
    by (intros; simpl; lia).
  split; [exact Hclamp |].
  unfold run_outcome, _run, run_body, _fetch_weather_data.
  destruct (_get_coordinates city) as [coords|] eqn:Hcity.
  - right. exists coords. split; [reflexivity |].
    fold (request_for http_get coords days).
    destruct (request_for http_get coords days) as [[daily|]|e] eqn:Hreq.
    + specialize (Hsrc coords daily Hcity Hreq). rewrite Hclamp in Hsrc.
      cbn [bind]. unfold _format_weather_output.
      destruct (format_lines day_name float_sum float_div (name coords) daily days)
        as [lines|e] eqn:Hfmt.
      * right; right; right. exists daily, lines.
        split; [reflexivity |]. split; [exact Hfmt |].
        split; [| reflexivity].
        rewrite (format_lines_day_entries _ _ _ _ _ _ _ Hfmt). lia.
      * right; right; left. exists daily, e.
        split; [reflexivity |]. split; [exact Hfmt | reflexivity].
    + left. split; [left; reflexivity | reflexivity].
    + destruct e; cbn [bind];
        try (right; left; eexists; split; [reflexivity |];
             split; [intros ?; discriminate | reflexivity]).
      left. split; [right; eexists; reflexivity | reflexivity].
  - left. split; reflexivity.
Qed.

End WeatherRun.

Section WeatherSamples.
Import Py Weather.

Lemma weather_tips_witness :
  let avg :=
    exact_div (exact_sum (window (temperature_2m_max one_day_30) 1)) 1 in
  (has_tip TipLight one_day_30_lines = true <-> (30 < avg)%Q)
  /\ (has_tip TipWarm one_day_30_lines = true <-> (avg < 20)%Q)
  /\ (has_tip TipPleasant one_day_30_lines = true
      <-> (20 <= avg)%Q /\ (avg <= 30)%Q)
  /\ (has_tip TipUmbrella one_day_30_lines = true
      <-> exists p, In p (window (precipitation_sum one_day_30) 1) /\ (5 < p)%Q).
Proof.
  apply (weather_tips iso_day_name exact_sum exact_div "Goa" one_day_30 1 one_day_30_lines).
  - simpl. lia.
  - reflexivity.
Defined.

(** C7 as stated fails: one day with a high of exactly 30 has an
    average high of 30 (no step rounds: the sum of the one number 30,
    divided by 1), for which the claim gives the hot advice, but the
    formatter gives the pleasant-weather line and not the light-clothing
    one. *)
Lemma weather_tips_counterexample :
  format_lines iso_day_name exact_sum exact_div "Goa" one_day_30 1 = Ok one_day_30_lines
  /\ (30 <= average (window (temperature_2m_max one_day_30) 1))%Q
  /\ has_tip TipLight one_day_30_lines = false
  /\ has_tip TipPleasant one_day_30_lines = true.
Proof.
  split; [reflexivity |].
  split; [unfold Qle; simpl; lia |].
  split; reflexivity.
Qed.

Lemma weather_days_clamped_witness :
  (forall latitude longitude : Q,
      forecast_days (weather_params latitude longitude 10) = 7)
  /\ run_outcome sample_http iso_day_name ratio_text exact_sum exact_div "Goa" 10 7.
Proof.
  apply (weather_days_clamped sample_http iso_day_name ratio_text exact_sum exact_div "Goa" 10).
  - lia.
  - intros coords daily Hcity Hreq. inversion Hreq. simpl. lia.
Defined.

End WeatherSamples.

(* ================================================================== *)
(** * Further properties of the code *)
(* ================================================================== *)

(** ** Data loader: bounds and recency of the cache *)

Section CacheBounds.
Import Py Json Functools Loader.

Lemma cache_remove_length (c : list (Key * json)) (k : Key) :
  (length (cache_remove key_eqb k c) <= length c)%nat.
Proof.
  induction c as [|[k1 v1] r IH]; simpl; [lia |].
  destruct (key_eqb k1 k); simpl; lia.
Qed.

Lemma cache_remove_shrinks (c : list (Key * json)) (k : Key) (v : json) :
  cache_get key_eqb k c = Some v ->
  (length (cache_remove key_eqb k c) < length c)%nat.
Proof.
  induction c as [|[k1 v1] r IH]; simpl; [discriminate |].
  destruct (key_eqb k1 k); simpl; intros H.
  - pose proof (cache_remove_length r k). lia.
  - specialize (IH H). lia.
Qed.

Lemma removelast_length {A : Type} (l : list A) :
  length (removelast l) = (length l - 1)%nat.
Proof.
  induction l as [|x [|y r] IH]; try reflexivity.
  change (removelast (x :: y :: r)) with (x :: removelast (y :: r)).
  simpl length in *. rewrite IH. lia.
Qed.

Lemma load_json_bounded (fs : FileSystem) (self : DataLoader)
    (filename : string) (st : State) :
  (length (cache st) <= maxsize)%nat ->
  (length (cache (snd (load_json fs self filename st))) <= maxsize)%nat.
Proof.
  unfold load_json, maxsize. intros Hlen.
  destruct (cache_get key_eqb (ident self, filename) (cache st)) as [v|] eqn:Hget.
  - cbn [snd cache cache_touch length].
    pose proof (cache_remove_shrinks _ _ _ Hget). lia.
  - destruct (load_json_body fs self filename) as [[v|e] reads];
      cbn [snd cache]; [| exact Hlen].
    unfold cache_store.
    destruct (10 <=? length (cache st))%nat eqn:E; cbn [length].
    + apply Nat.leb_le in E. rewrite removelast_length. lia.
    + apply Nat.leb_gt in E. lia.
Qed.

(** X1.  The store never grows beyond ten entries: any sequence of
    [load_json] calls, by any loaders and on any disks, keeps a store of
    at most ten entries within ten entries. *)
Theorem cache_never_exceeds_maxsize :
  forall (calls : list Call) (st : State),
    (length (cache st) <= 10)%nat ->
    (length (cache (run calls st)) <= 10)%nat.
Proof.
  induction calls as [|[[fs self] filename] r IH]; intros st Hlen; simpl.
  - exact Hlen.
  - apply IH. unfold do_call. simpl. now apply load_json_bounded.
Qed.

Lemma cache_never_exceeds_maxsize_witness :
  (length (cache (run (calls_on fs_arrays sample_loader
                                (eleven_files ++ ["f0.json"]))
                      fresh)) <= 10)%nat.
Proof.
  apply cache_never_exceeds_maxsize. simpl. lia.
Defined.

Lemma recent_get (n : nat) (k : Key) (v : json) (c : list (Key * json)) :
  recent n k v c -> cache_get key_eqb k c = Some v.
Proof.
  intros [pre [post [Hc [Hnin _]]]]. subst c.
  induction pre as [|[k1 v1] pre IH]; simpl.
  - now rewrite (proj2 (key_eqb_eq k k) eq_refl).
  - simpl in Hnin.
    destruct (key_eqb k1 k) eqn:E.
    + apply key_eqb_eq in E. tauto.
    + apply IH. tauto.
Qed.

Lemma recent_weaken (n m : nat) (k : Key) (v : json) (c : list (Key * json)) :
  (n <= m)%nat -> recent n k v c -> recent m k v c.
Proof.
  intros Hnm [pre [post [Hc [Hnin Hlen]]]].
  exists pre, post. repeat split; auto. lia.
Qed.

Lemma cache_remove_app (k : Key) (a b : list (Key * json)) :
  cache_remove key_eqb k (a ++ b)
  = (cache_remove key_eqb k a ++ cache_remove key_eqb k b)%list.
Proof.
  induction a as [|[k1 v1] a IH]; simpl; [reflexivity |].
  destruct (key_eqb k1 k); simpl; now rewrite IH.
Qed.

(** A successful load leaves its entry at the front. *)
Lemma load_json_front (fs : FileSystem) (self : DataLoader)
    (filename : string) (st st1 : State) (v : json) :
  load_json fs self filename st = (Ok v, st1) ->
  recent 0 (ident self, filename) v (cache st1).
Proof.
  unfold load_json.
  destruct (cache_get key_eqb (ident self, filename) (cache st)) as [w|].
  - intros H. inversion H; subst. cbn [cache]. unfold cache_touch.
    exists [], (cache_remove key_eqb (ident self, filename) (cache st)).
    repeat split; simpl; auto.
  - destruct (load_json_body fs self filename) as [[w|e] reads];
      intros H; inversion H; subst. cbn [cache]. unfold cache_store.
    destruct (maxsize <=? length (cache st))%nat;
      [exists [], (removelast (cache st)) | exists [], (cache st)];
      repeat split; simpl; auto.
Qed.

(** One more call moves an entry back by at most one place, and drops it
    only from the tenth place. *)
Lemma load_json_ages (fs : FileSystem) (self : DataLoader)
    (filename : string) (st : State) (n : nat) (k : Key) (v : json) :
  (n <= 8)%nat ->
  recent n k v (cache st) ->
  recent (S n) k v (cache (snd (load_json fs self filename st))).
Proof.
  intros Hn Hrec. unfold load_json.
  destruct (cache_get key_eqb (ident self, filename) (cache st)) as [w|] eqn:Hget.
  - cbn [snd cache]. unfold cache_touch.
    destruct (key_eqb (ident self, filename) k) eqn:E.
    + apply key_eqb_eq in E. rewrite E in *.
      rewrite (recent_get _ _ _ _ Hrec) in Hget. inversion Hget; subst w.
      exists [], (cache_remove key_eqb k (cache st)).
      repeat split; simpl; auto. lia.
    + apply key_eqb_neq in E.
      destruct Hrec as [pre [post [Hc [Hnin Hlen]]]].
      exists ((ident self, filename, w)
                :: cache_remove key_eqb (ident self, filename) pre),
             (cache_remove key_eqb (ident self, filename) post).
      split; [| split].
      * rewrite Hc, cache_remove_app. simpl.
        destruct (key_eqb k (ident self, filename)) eqn:E2.
        -- apply key_eqb_eq in E2. congruence.
        -- reflexivity.
      * simpl. intros [H | H]; [congruence |].
        apply cache_remove_in in H. tauto.
      * simpl. pose proof (cache_remove_length pre (ident self, filename)). lia.
  - destruct (load_json_body fs self filename) as [[w|e] reads]; cbn [snd cache].
    + assert (Hne : (ident self, filename) <> k).
      { intros E. rewrite E in Hget.
        rewrite (recent_get _ _ _ _ Hrec) in Hget. discriminate. }
      destruct Hrec as [pre [post [Hc [Hnin Hlen]]]].
      unfold cache_store, maxsize.
      destruct (10 <=? length (cache st))%nat eqn:E.
      * apply Nat.leb_le in E. rewrite Hc in E |- *.
        rewrite length_app in E. simpl in E.
        destruct post as [|p post]; [simpl in E; lia |].
        exists ((ident self, filename, w) :: pre), (removelast (p :: post)).
        split; [| split].
        -- rewrite removelast_app by discriminate. reflexivity.
        -- simpl. intros [H | H]; [congruence | tauto].
        -- simpl. lia.
      * exists ((ident self, filename, w) :: pre), post.
        split; [| split].
        -- now rewrite Hc.
        -- simpl. intros [H | H]; [congruence | tauto].
        -- simpl. lia.
    + eapply recent_weaken; [| exact Hrec]. lia.
Qed.

Lemma run_ages (calls : list Call) :
  forall (st : State) (n : nat) (k : Key) (v : json),
    (n + length calls <= 9)%nat ->
    recent n k v (cache st) ->
    recent (n + length calls) k v (cache (run calls st)).
Proof.
  induction calls as [|[[fs self] filename] r IH];
    intros st n k v Hlen Hrec; simpl in *.
  - now rewrite Nat.add_0_r.
  - replace (n + S (length r))%nat with (S n + length r)%nat by lia.
    apply IH; [lia |].
    unfold do_call. simpl. apply load_json_ages; [lia | exact Hrec].
Qed.

(** X2.  An entry outlives nine calls: after a load that returned, and any
    nine or fewer further [load_json] calls (other filenames, other
    loaders, hits or misses, failures), a call with the same filename is
    answered from the store with the same collection and opens no file. *)
Theorem recently_loaded_survives :
  forall (fs fs' : FileSystem) (self : DataLoader) (filename : string)
         (st st1 : State) (v : json) (calls : list Call),
    load_json fs self filename st = (Ok v, st1) ->
    (length calls <= 9)%nat ->
    fst (load_json fs' self filename (run calls st1)) = Ok v
    /\ opened (snd (load_json fs' self filename (run calls st1)))
       = opened (run calls st1).
Proof.
  intros fs fs' self filename st st1 v calls Hload Hlen.
  pose proof (load_json_front _ _ _ _ _ _ Hload) as Hfront.
  pose proof (run_ages calls st1 0 _ _ Hlen Hfront) as Hrec.
  rewrite (load_json_hit fs' self filename _ v (recent_get _ _ _ _ Hrec)).
  split; reflexivity.
Qed.

Lemma recently_loaded_survives_witness :
  fst (load_json (fun _ => Missing) sample_loader "f0.json"
         (run (calls_on fs_arrays sample_loader
                 ["f1.json"; "f2.json"; "f3.json"; "f4.json"; "f5.json";
                  "f6.json"; "f7.json"; "f8.json"; "f9.json"])
              (snd (load_json fs_arrays sample_loader "f0.json" fresh))))
  = Ok (JArr [])
  /\ opened (snd (load_json (fun _ => Missing) sample_loader "f0.json"
         (run (calls_on fs_arrays sample_loader
                 ["f1.json"; "f2.json"; "f3.json"; "f4.json"; "f5.json";
                  "f6.json"; "f7.json"; "f8.json"; "f9.json"])
              (snd (load_json fs_arrays sample_loader "f0.json" fresh)))))
     = opened (run (calls_on fs_arrays sample_loader
                 ["f1.json"; "f2.json"; "f3.json"; "f4.json"; "f5.json";
                  "f6.json"; "f7.json"; "f8.json"; "f9.json"])
              (snd (load_json fs_arrays sample_loader "f0.json" fresh))).
Proof.
  apply (recently_loaded_survives fs_arrays (fun _ => Missing) sample_loader
           "f0.json" fresh).
  - reflexivity.
  - simpl. lia.
Defined.

End CacheBounds.

(** ** Data loader: failures, clearing, paths and shapes *)

Section LoaderEdges.
Import Py Json Functools Loader FlightData.

(** X3.  A load that raises is not remembered: the store is as before, and
    when the file is there and decodes at the next call, that call opens
    it and returns its collection. *)
Theorem failed_load_not_cached :
  forall (fs fs' : FileSystem) (self : DataLoader) (filename : string)
         (st st1 : State) (e : exn) (data : json),
    load_json fs self filename st = (Raise e, st1) ->
    fs' (path_join (data_path self) filename) = Parsed data ->
    cache st1 = cache st
    /\ fst (load_json fs' self filename st1) = Ok (select data)
    /\ opened (snd (load_json fs' self filename st1))
       = (opened st1 ++ [path_join (data_path self) filename])%list.
Proof.
  intros fs fs' self filename st st1 e data Hload Hfile.
  unfold load_json in Hload.
  destruct (cache_get key_eqb (ident self, filename) (cache st)) as [w|] eqn:Hget;
    [discriminate |].
  destruct (load_json_body fs self filename) as [[w|e'] reads];
    inversion Hload; subst; clear Hload.
  cbn [cache]. split; [reflexivity |].
  rewrite (load_json_miss fs' self filename _ data); [split; reflexivity | | exact Hfile].
  exact Hget.
Qed.

Lemma failed_load_not_cached_witness :
  cache (snd (load_json fs_broken sample_loader "hotels.json" fresh))
  = cache fresh
  /\ fst (load_json fs_single sample_loader "hotels.json"
            (snd (load_json fs_broken sample_loader "hotels.json" fresh)))
     = Ok (select (JObj [("name", JStr "Taj")]))
  /\ opened (snd (load_json fs_single sample_loader "hotels.json"
                    (snd (load_json fs_broken sample_loader "hotels.json" fresh))))
     = (opened (snd (load_json fs_broken sample_loader "hotels.json" fresh))
        ++ [path_join (data_path sample_loader) "hotels.json"])%list.
Proof.
  apply (failed_load_not_cached fs_broken fs_single sample_loader "hotels.json"
           fresh _
           (ValueError ("Invalid JSON in data/hotels.json: "
                        ++ "Expecting value: line 1 column 1 (char 0)"))).
  - reflexivity.
  - reflexivity.
Defined.

(** X4.  After [clear_cache] the next load of any filename by any loader goes
    to the disk: it opens the file and returns the collection the disk
    holds now, whatever was cached before. *)
Theorem clear_cache_forces_reload :
  forall (fs : FileSystem) (self : DataLoader) (filename : string)
         (st : State) (data : json),
    fs (path_join (data_path self) filename) = Parsed data ->
    fst (load_json fs self filename (clear_cache st)) = Ok (select data)
    /\ opened (snd (load_json fs self filename (clear_cache st)))
       = (opened st ++ [path_join (data_path self) filename])%list.
Proof.
  intros fs self filename st data Hfile.
  rewrite (load_json_miss fs self filename (clear_cache st) data);
    [split; reflexivity | reflexivity | exact Hfile].
Qed.

Lemma clear_cache_forces_reload_witness :
  fst (load_json fs_single sample_loader "hotels.json"
         (clear_cache (snd (load_json fs_arrays sample_loader "hotels.json" fresh))))
  = Ok (select (JObj [("name", JStr "Taj")]))
  /\ opened (snd (load_json fs_single sample_loader "hotels.json"
         (clear_cache (snd (load_json fs_arrays sample_loader "hotels.json" fresh)))))
     = (opened (snd (load_json fs_arrays sample_loader "hotels.json" fresh))
        ++ [path_join (data_path sample_loader) "hotels.json"])%list.
Proof.
  apply (clear_cache_forces_reload fs_single sample_loader "hotels.json").
  reflexivity.
Defined.

(** [first_some] stops at the first element with a value. *)
Lemma first_some_split {A B : Type} (f : A -> option B)
    (before : list A) (key : A) (after : list A) (v : B) :
  (forall k, In k before -> f k = None) ->
  f key = Some v ->
  first_some f (before ++ key :: after) = Some v.
Proof.
  intros Hbefore Hkey. induction before as [|a r IH]; simpl.
  - now rewrite Hkey.
  - rewrite (Hbefore a (or_introl eq_refl)).
    apply IH. intros k Hk. apply Hbefore. now right.
Qed.

Lemma first_some_found {A B : Type} (f : A -> option B) (l : list A) (v : B) :
  first_some f l = Some v ->
  exists before key after,
    l = (before ++ key :: after)%list
    /\ (forall k, In k before -> f k = None)
    /\ f key = Some v.
Proof.
  induction l as [|a r IH]; simpl; [discriminate |].
  destruct (f a) as [b|] eqn:E.
  - intros H. inversion H; subst. exists [], a, r.
    split; [reflexivity |]. split; [intros k [] | exact E].
  - intros H. destruct (IH H) as [before [key [after [Hl [Hb Hk]]]]].
    exists (a :: before), key, after.
    split; [simpl; now rewrite Hl |].
    split; [| exact Hk].
    intros k [Hka | Hkb]; [now subst | now apply Hb].
Qed.

(** X5.  What [load_json] returns for a document is a list, except when the
    document is an object whose first present key among [flights],
    [hotels], [places], [data] holds something else, which is then
    returned as it is; and for an object that has one of these keys the
    result is the value under the first of them that is present,
    whatever the later ones hold. *)
Theorem select_is_list_or_field :
  forall data : json,
    ((exists items, select data = JArr items)
     \/ (exists fields before key after,
           data = JObj fields
           /\ common_keys = (before ++ key :: after)%list
           /\ (forall k, In k before -> lookup k fields = None)
           /\ lookup key fields = Some (select data)))
    /\ (forall fields before key after v,
          data = JObj fields ->
          common_keys = (before ++ key :: after)%list ->
          (forall k, In k before -> lookup k fields = None) ->
          lookup key fields = Some v ->
          select data = v).
Proof.
  intros data. split.
  - destruct data as [| b | q | s | items | fields];
      try (left; eexists; reflexivity).
    unfold select.
    destruct (first_some (fun key => lookup key fields) common_keys)
      as [v|] eqn:E.
    + right. destruct (first_some_found _ _ _ E)
        as [before [key [after [Hl [Hb Hk]]]]].
      exists fields, before, key, after. auto.
    + left. eexists. reflexivity.
  - intros fields before key after v Hdata Hl Hb Hk. subst data.
    unfold select. rewrite Hl.
    now rewrite (first_some_split (fun key => lookup key fields)
                   before key after v Hb Hk).
Qed.

Lemma select_is_list_or_field_witness :
  ((exists items,
      select (JObj [("data", JStr "x"); ("hotels", JNum 3)]) = JArr items)
   \/ (exists fields before key after,
         JObj [("data", JStr "x"); ("hotels", JNum 3)] = JObj fields
         /\ common_keys = (before ++ key :: after)%list
         /\ (forall k, In k before -> lookup k fields = None)
         /\ lookup key fields
            = Some (select (JObj [("data", JStr "x"); ("hotels", JNum 3)]))))
  /\ (forall fields before key after v,
        JObj [("data", JStr "x"); ("hotels", JNum 3)] = JObj fields ->
        common_keys = (before ++ key :: after)%list ->
        (forall k, In k before -> lookup k fields = None) ->
        lookup key fields = Some v ->
        select (JObj [("data", JStr "x"); ("hotels", JNum 3)]) = v).
Proof.
  apply (select_is_list_or_field (JObj [("data", JStr "x"); ("hotels", JNum 3)])).
Defined.

(** X6.  The two loaders of the flights file agree on a document that is a
    list or an object with the key [flights]: the tool's [_load_flights]
    and a first [load_flights] of a loader on the same path return the
    same collection. *)
Theorem flight_loaders_agree :
  forall (fs : FileSystem) (self : DataLoader) (st : State) (data : json),
    cache_get key_eqb (ident self, "flights.json") (cache st) = None ->
    fs (path_join (data_path self) "flights.json") = Parsed data ->
    ((exists items, data = JArr items)
     \/ (exists fields v, data = JObj fields /\ lookup "flights" fields = Some v)) ->
    fst (load_flights fs self st)
    = Ok (_load_flights fs (path_join (data_path self) "flights.json")).
Proof.
  intros fs self st data Hmiss Hfile Hshape.
  unfold load_flights, _load_flights.
  rewrite (load_json_miss _ _ _ _ _ Hmiss Hfile), Hfile. simpl.
  destruct Hshape as [[items H] | [fields [v [H Hv]]]]; subst data.
  - reflexivity.
  - unfold select, common_keys. simpl. now rewrite Hv.
Qed.

Lemma flight_loaders_agree_witness :
  fst (load_flights fs_wrapped sample_loader fresh)
  = Ok (_load_flights fs_wrapped
          (path_join (data_path sample_loader) "flights.json")).
Proof.
  apply (flight_loaders_agree fs_wrapped sample_loader fresh
           (JObj [("version", JNum 1);
                  ("flights", JArr [sample_flight "6E-123" "IndiGo" "Delhi"
                                      "Goa" "14:00" "16:30" 150 4800 45])])).
  - reflexivity.
  - reflexivity.
  - right. eexists. eexists. split; reflexivity.
Defined.

End LoaderEdges.

(** ** Weather tool: edges of the formatter *)

Section FormatterEdges.
Import Py Weather.

Variable day_name : string -> result string.

Lemma index_ok {A : Type} (xs : list A) (i : nat) :
  (i < length xs)%nat -> exists x, index xs i = Ok x.
Proof.
  intros H. unfold index.
  destruct (nth_error xs i) as [x|] eqn:E; [now exists x |].
  apply nth_error_None in E. lia.
Qed.

Lemma index_short {A : Type} (xs : list A) (i : nat) :
  (length xs <= i)%nat -> index xs i = Raise IndexError.
Proof.
  intros H. unfold index.
  now rewrite (proj2 (nth_error_None xs i) H).
Qed.

Lemma day_block_cases (daily : Daily) (i : nat) (date dname : string) :
  nth_error (time daily) i = Some date ->
  day_name date = Ok dname ->
  (covers daily i -> exists block, day_block day_name daily i = Ok block)
  /\ (~ covers daily i -> day_block day_name daily i = Raise IndexError).
Proof.
  intros Hdate Hname. unfold covers.
  split; unfold day_block; unfold index at 1; rewrite Hdate; cbn [bind];
    rewrite Hname; cbn [bind].
  - intros [Hc [Hh Hl]].
    destruct (index_ok _ _ Hc) as [c Ec].
    destruct (index_ok _ _ Hh) as [h Eh].
    destruct (index_ok _ _ Hl) as [l El].
    rewrite Ec, Eh, El. cbn [bind]. eexists. reflexivity.
  - intros Hnot.
    destruct (Nat.lt_ge_cases i (length (weathercode daily))) as [Hc | Hc];
      [| rewrite (index_short _ _ Hc); reflexivity].
    destruct (index_ok _ _ Hc) as [c Ec]. rewrite Ec. cbn [bind].
    destruct (Nat.lt_ge_cases i (length (temperature_2m_max daily))) as [Hh | Hh];
      [| rewrite (index_short _ _ Hh); reflexivity].
    destruct (index_ok _ _ Hh) as [h Eh]. rewrite Eh. cbn [bind].
    destruct (Nat.lt_ge_cases i (length (temperature_2m_min daily))) as [Hl | Hl];
      [| rewrite (index_short _ _ Hl); reflexivity].
    tauto.
Qed.

Lemma day_blocks_cases (daily : Daily) (rounds : list nat) :
  (forall i, In i rounds ->
     exists date dname,
       nth_error (time daily) i = Some date /\ day_name date = Ok dname) ->
  ((forall i, In i rounds -> covers daily i) ->
   exists blocks, day_blocks day_name daily rounds = Ok blocks)
  /\ ((exists i, In i rounds /\ ~ covers daily i) ->
      day_blocks day_name daily rounds = Raise IndexError).
Proof.
  induction rounds as [|i r IH]; intros Hdates.
  - split; [intros _; now exists [] | intros [i [[] _]]].
  - destruct (Hdates i (or_introl eq_refl)) as [date [dname [Hd Hn]]].
    destruct (day_block_cases daily i date dname Hd Hn) as [Hok Hbad].
    destruct (IH (fun j Hj => Hdates j (or_intror Hj))) as [IHok IHbad].
    split.
    + intros Hall. simpl.
      destruct (Hok (Hall i (or_introl eq_refl))) as [b Eb].
      destruct (IHok (fun j Hj => Hall j (or_intror Hj))) as [bs Ebs].
      rewrite Eb, Ebs. cbn [bind]. eexists. reflexivity.
    + intros [j [[Hj | Hj] Hnot]]; simpl.
      * subst j. rewrite (Hbad Hnot). reflexivity.
      * assert (Hdec : covers daily i \/ ~ covers daily i)
          by (unfold covers; lia).
        destruct Hdec as [Hc | Hc]; [| rewrite (Hbad Hc); reflexivity].
        destruct (Hok Hc) as [b Eb]. rewrite Eb. cbn [bind].
        rewrite (IHbad (ex_intro _ j (conj Hj Hnot))). reflexivity.
Qed.

End FormatterEdges.

Section FormatterOutcomes.
Import Py Weather.

Variable day_name : string -> result string.
Variable str_num : Q -> string.
Variable float_sum : list Q -> Q.
Variable float_div : Q -> Z -> Q.

(** X7.  Asking for zero days ends in the division by zero of the average,
    whatever the forecast holds. *)
Theorem zero_days_division_error :
  forall (city_name : string) (daily : Daily),
    _format_weather_output day_name str_num float_sum float_div city_name daily 0
    = "Error formatting weather data: division by zero".
Proof.
  intros city_name daily.
  unfold _format_weather_output, format_lines.
  replace (Z.to_nat (Z.min 0 (Z.of_nat (length (time daily))))) with 0%nat
    by lia.
  reflexivity.
Qed.

Lemma shown_rounds (daily : Daily) (days : Z) :
  dates_parse day_name daily days ->
  forall i, In i (seq 0 (shown_days daily days)) ->
    exists date dname,
      nth_error (time daily) i = Some date /\ day_name date = Ok dname.
Proof.
  intros Hdates i Hin. apply in_seq in Hin.
  assert (Hi : (i < length (time daily))%nat) by (unfold shown_days in Hin; lia).
  destruct (nth_error (time daily) i) as [date|] eqn:E.
  - destruct (Hdates i date) as [dname Hn]; [lia | exact E |].
    now exists date, dname.
  - apply nth_error_None in E. lia.
Qed.

(** X8.  A temperature or code series shorter than the days to show turns the
    whole answer into the index error text: no partial forecast is
    returned. *)
Theorem short_series_index_error :
  forall (city_name : string) (daily : Daily) (days : Z),
    dates_parse day_name daily days ->
    (length (weathercode daily) < shown_days daily days
     \/ length (temperature_2m_max daily) < shown_days daily days
     \/ length (temperature_2m_min daily) < shown_days daily days)%nat ->
    _format_weather_output day_name str_num float_sum float_div city_name daily days
    = "Error formatting weather data: list index out of range".
Proof.
  intros city_name daily days Hdates Hshort.
  destruct (day_blocks_cases day_name daily (seq 0 (shown_days daily days))
              (shown_rounds daily days Hdates)) as [_ Hbad].
  unfold _format_weather_output, format_lines.
  fold (shown_days daily days).
  rewrite Hbad; [reflexivity |].
  unfold covers.
  destruct Hshort as [H | [H | H]];
    [exists (length (weathercode daily))
    | exists (length (temperature_2m_max daily))
    | exists (length (temperature_2m_min daily))];
    (split; [apply in_seq; lia | lia]).
Qed.

(** X9.  When the dates parse, the days are not zero and the code and the two
    temperature series reach as far as the days to show, the forecast is
    formatted, with one entry for each of [min(days, len(dates))] days
    (none for negative [days]); the two precipitation series may be
    shorter, a day they do not reach reads as 0. *)
Theorem forecast_is_formatted :
  forall (city_name : string) (daily : Daily) (days : Z),
    dates_parse day_name daily days ->
    days <> 0 ->
    (shown_days daily days <= length (weathercode daily)
     /\ shown_days daily days <= length (temperature_2m_max daily)
     /\ shown_days daily days <= length (temperature_2m_min daily))%nat ->
    exists lines,
      format_lines day_name float_sum float_div city_name daily days = Ok lines
      /\ day_entries lines = shown_days daily days
      /\ _format_weather_output day_name str_num float_sum float_div city_name daily days
         = concat_str (map (render str_num) lines).
Proof.
  intros city_name daily days Hdates Hdays Hlong.
  destruct (day_blocks_cases day_name daily (seq 0 (shown_days daily days))
              (shown_rounds daily days Hdates)) as [Hok _].
  destruct Hok as [blocks Hblocks].
  { intros i Hin. apply in_seq in Hin. unfold covers. lia. }
  assert (Hfmt : exists lines,
             format_lines day_name float_sum float_div city_name daily days = Ok lines).
  { unfold format_lines. fold (shown_days daily days). rewrite Hblocks.
    unfold avg_temp. destruct (days =? 0) eqn:E;
      [apply Z.eqb_eq in E; contradiction |].
    cbn [bind]. eexists. reflexivity. }
  destruct Hfmt as [lines Hfmt]. exists lines.
  split; [exact Hfmt |]. split.
  - now rewrite (format_lines_day_entries _ _ _ _ _ _ _ Hfmt).
  - unfold _format_weather_output. now rewrite Hfmt.
Qed.

End FormatterOutcomes.

Section FormatterSamples.
Import Py Weather.

Lemma short_series_index_error_witness :
  _format_weather_output iso_day_name ratio_text exact_sum exact_div "Goa" short_codes 2
  = "Error formatting weather data: list index out of range".
Proof.
  apply (short_series_index_error iso_day_name ratio_text exact_sum exact_div "Goa" short_codes 2).
  - intros i date Hi Hdate.
    destruct i as [|[|i]];
      [| | unfold shown_days in Hi; simpl in Hi; lia];
      simpl in Hdate; inversion Hdate; subst; eexists; reflexivity.
  - left. unfold shown_days. simpl. lia.
Defined.

Lemma forecast_is_formatted_witness :
  exists lines,
    format_lines iso_day_name exact_sum exact_div "Goa" sample_week 10 = Ok lines
    /\ day_entries lines = shown_days sample_week 10
    /\ _format_weather_output iso_day_name ratio_text exact_sum exact_div "Goa" sample_week 10
       = concat_str (map (render ratio_text) lines).
Proof.
  apply (forecast_is_formatted iso_day_name ratio_text exact_sum exact_div "Goa" sample_week 10).
  - intros i date Hi Hdate.
    do 7 (destruct i as [|i];
          [simpl in Hdate; inversion Hdate; subst; eexists; reflexivity |]).
    unfold shown_days in Hi. simpl in Hi. lia.
  - lia.
  - unfold shown_days. simpl. lia.
Defined.

End FormatterSamples.

(** ** Weather tool: the travel tips *)

Section TipFacts.
Import Py Weather.

Variable day_name : string -> result string.
Variable float_sum : list Q -> Q.
Variable float_div : Q -> Z -> Q.

Lemma existsb_false_filter {A : Type} (f : A -> bool) (l : list A) :
  existsb f l = false -> filter f l = [].
Proof.
  induction l as [|x r IH]; simpl; [reflexivity |].
  destruct (f x); simpl; [discriminate | exact IH].
Qed.

Lemma count_tip_app (tip : Line) (a b : list Line) :
  count_tip tip (a ++ b) = (count_tip tip a + count_tip tip b)%nat.
Proof.
  unfold count_tip. now rewrite filter_app, length_app.
Qed.

(** The tips of a forecast that formats are those of [travel_tips] at the
    quotient the code computes. *)
Lemma format_tips (city_name : string) (daily : Daily) (days : Z)
    (lines : list Line) :
  format_lines day_name float_sum float_div city_name daily days = Ok lines ->
  days <> 0
  /\ let avg :=
       float_div (float_sum (slice_to (temperature_2m_max daily) days)) days in
     (forall tip, has_tip tip lines
                  = has_tip tip (travel_tips avg (has_rain daily days)))
     /\ (forall tip, count_tip tip lines
                     = count_tip tip (travel_tips avg (has_rain daily days))).
Proof.
  intros Hfmt.
  destruct (format_lines_ok _ _ _ _ _ _ _ Hfmt) as [blocks [avg0 [Hblocks [Havg Hlines]]]].
  destruct (day_blocks_shape _ _ _ _ Hblocks) as [_ Hnotip].
  unfold avg_temp in Havg. cbv zeta in Havg.
  destruct (days =? 0) eqn:E; [discriminate |].
  apply Z.eqb_neq in E. inversion Havg as [Havg0]. clear Havg.
  split; [exact E |].
  cbv zeta. subst lines avg0. split; intros tip.
  - rewrite !has_tip_app, Hnotip. destruct tip; reflexivity.
  - rewrite !count_tip_app.
    unfold count_tip at 2. rewrite (existsb_false_filter _ _ (Hnotip tip)).
    destruct tip; reflexivity.
Qed.

(** X10.  A forecast that formats carries exactly one of the three clothing
    tips and exactly one of the two rain tips. *)
Theorem one_tip_of_each_kind :
  forall (city_name : string) (daily : Daily) (days : Z),
    match format_lines day_name float_sum float_div city_name daily days with
    | Ok lines =>
        (count_tip TipLight lines + count_tip TipWarm lines
         + count_tip TipPleasant lines = 1)%nat
        /\ (count_tip TipUmbrella lines + count_tip TipNoRain lines = 1)%nat
    | Raise _ => True
    end.
Proof.
  intros city_name daily days.
  destruct (format_lines day_name float_sum float_div city_name daily days) as [lines|e] eqn:Hfmt;
    [| exact I].
  destruct (format_tips _ _ _ _ Hfmt) as [_ [_ Hcount]].
  rewrite !Hcount. unfold travel_tips.
  set (avg :=
         float_div (float_sum (slice_to (temperature_2m_max daily) days)) days).
  destruct (Qgtb avg 30); destruct (Qltb avg 20);
    destruct (has_rain daily days); split; reflexivity.
Qed.

(** X11.  When at least as many days are requested as there are highs, the
    clothing tip is decided by the float sum of all the highs divided, in
    float arithmetic, by the number of days requested, not by their
    number: light clothing exactly when the computed quotient is above
    30, warm layers exactly when it is below 20. *)
Theorem tips_divide_by_requested_days :
  forall (city_name : string) (daily : Daily) (days : Z),
    1 <= days ->
    Z.of_nat (length (temperature_2m_max daily)) <= days ->
    match format_lines day_name float_sum float_div city_name daily days with
    | Ok lines =>
        let quotient :=
          float_div (float_sum (temperature_2m_max daily)) days in
        (has_tip TipLight lines = true <-> (30 < quotient)%Q)
        /\ (has_tip TipWarm lines = true <-> (quotient < 20)%Q)
        /\ (has_tip TipPleasant lines = true
            <-> (20 <= quotient)%Q /\ (quotient <= 30)%Q)
    | Raise _ => True
    end.
Proof.
  intros city_name daily days Hdays Hlen.
  destruct (format_lines day_name float_sum float_div city_name daily days)
    as [lines|e] eqn:Hfmt; [| exact I].
  destruct (format_tips _ _ _ _ Hfmt) as [_ [Htips _]].
  assert (Hall : slice_to (temperature_2m_max daily) days
                 = temperature_2m_max daily).
  { unfold slice_to. destruct (0 <=? days) eqn:E; [| apply Z.leb_gt in E; lia].
    apply firstn_all2. lia. }
  rewrite Hall in Htips. cbv zeta.
  rewrite !Htips.
  apply travel_tips_thresholds.
Qed.

End TipFacts.

Section TipSamples.
Import Py Weather.

Lemma tips_divide_by_requested_days_witness :
  match format_lines iso_day_name exact_sum exact_div "Goa" sample_week 10 with
  | Ok lines =>
      let quotient :=
        exact_div (exact_sum (temperature_2m_max sample_week)) 10 in
      (has_tip TipLight lines = true <-> (30 < quotient)%Q)
      /\ (has_tip TipWarm lines = true <-> (quotient < 20)%Q)
      /\ (has_tip TipPleasant lines = true
          <-> (20 <= quotient)%Q /\ (quotient <= 30)%Q)
  | Raise _ => True
  end.
Proof.
  apply (tips_divide_by_requested_days iso_day_name exact_sum exact_div "Goa" sample_week 10).
  - lia.
  - simpl. lia.
Defined.

End TipSamples.

(** ** Weather tool: an unknown city *)

Section UnknownCity.
Import Py Weather.

Variable http_get : string -> Params -> result (option Daily).
Variable day_name : string -> result string.
Variable str_num : Q -> string.
Variable float_sum : list Q -> Q.
Variable float_div : Q -> Z -> Q.

Lemma contains_suffix (p pre s : string) :
  contains p s = true -> contains p (pre ++ s) = true.
Proof.
  intros H. induction pre as [|c pre IH]; simpl; [exact H |].
  rewrite IH. apply orb_true_r.
Qed.

(** X12.  For a city that the table does not know, the tool sends no request:
    whatever the forecast service would answer, the result is the text
    that names the city as typed, and that text contains the name of
    every city of the table. *)
Theorem unknown_city_lists_table :
  forall (city : string) (days : Z),
    _get_coordinates city = None ->
    _run http_get day_name str_num float_sum float_div city days = not_found_text city
    /\ forall key coords,
         In (key, coords) CITY_COORDINATES ->
         contains (name coords) (not_found_text city) = true.
Proof.
  intros city days Hcity. split.
  - unfold _run, run_body. now rewrite Hcity.
  - intros key coords Hin. unfold not_found_text.
    do 4 apply contains_suffix.
    assert (Hall : forallb
              (fun entry : string * Coordinates =>
                 contains (name (snd entry))
                   (join ", " (sorted_set
                      (map (fun c : string * Coordinates => name (snd c))
                           CITY_COORDINATES))))
              CITY_COORDINATES = true) by (vm_compute; reflexivity).
    rewrite forallb_forall in Hall. exact (Hall (key, coords) Hin).
Qed.

End UnknownCity.

Section UnknownCitySample.
Import Py Weather.

Lemma unknown_city_lists_table_witness :
  _run sample_http iso_day_name ratio_text exact_sum exact_div "Paris" 3 = not_found_text "Paris"
  /\ forall key coords,
       In (key, coords) CITY_COORDINATES ->
       contains (name coords) (not_found_text "Paris") = true.
Proof.
  apply (unknown_city_lists_table sample_http iso_day_name ratio_text exact_sum exact_div "Paris" 3).
  reflexivity.
Defined.

End UnknownCitySample.

(** ** Flight tool: the answer text *)

Section FlightAnswer.
Import Py FlightSearch FlightReport.

Variable departure_time : Flight -> option string.
Variable arrival_time : Flight -> option string.
Variable available_seats : Flight -> option Z.

Lemma sort_flights_sorted (flights : list Flight) (sort_by : string) :
  _sort_flights flights sort_by = sorted (sort_key sort_by) flights.
Proof.
  unfold _sort_flights, sort_key. now destruct (String.eqb sort_by "duration").
Qed.

Lemma listed_app (a b : list Piece) : listed (a ++ b) = (listed a ++ listed b)%list.
Proof.
  apply flat_map_app.
Qed.

Lemma entries_priced (flights : list Flight) :
  forall i : nat,
    (forall f, In f flights -> price f <> None) ->
    exists listing, entries i flights = Ok listing /\ listed listing = flights.
Proof.
  induction flights as [|f r IH]; intros i Hpriced; simpl.
  - now exists [].
  - unfold entry.
    destruct (price f) as [amount|] eqn:Hp;
      [| exfalso; apply (Hpriced f); [left; reflexivity | exact Hp]].
    destruct (IH (S i) (fun g Hg => Hpriced g (or_intror Hg))) as [more [Hm Hl]].
    rewrite Hm. cbn [bind]. eexists. split; [reflexivity |].
    rewrite listed_app, Hl. reflexivity.
Qed.

Lemma entries_unpriced (flights : list Flight) :
  forall i : nat,
    (exists f, In f flights /\ price f = None) ->
    entries i flights
    = Raise (OtherError "unsupported format string passed to NoneType.__format__").
Proof.
  induction flights as [|f r IH]; intros i [g [Hin Hg]]; [destruct Hin |].
  simpl. unfold entry.
  destruct (price f) as [amount|] eqn:Hp; [| reflexivity].
  cbn [bind]. destruct Hin as [Hin | Hin]; [subst g; congruence |].
  rewrite (IH (S i) (ex_intro _ g (conj Hin Hg))). reflexivity.
Qed.

(** The answer for a search with matches whose first three, once sorted,
    all have a price. *)
Lemma run_report (flights_data : list Flight)
    (source destination sort_by : string) :
  let matches := _filter_flights flights_data source destination in
  let ranked := _sort_flights matches sort_by in
  matches <> [] ->
  (forall f, In f (firstn 3 ranked) -> price f <> None) ->
  exists best rest listing by_price,
    ranked = best :: rest
    /\ listed listing = firstn 3 ranked
    /\ recommendation ranked = Ok by_price
    /\ _run departure_time arrival_time available_seats
            flights_data source destination sort_by
       = concat_str
           (map (render departure_time arrival_time available_seats)
                ([Found (length matches)] ++ listing
                 ++ [Recommend best; Word by_price; Closing])).
Proof.
  cbv zeta.
  remember (_filter_flights flights_data source destination) as matches eqn:Hm.
  remember (_sort_flights matches sort_by) as ranked eqn:Hr.
  intros Hne Hpriced.
  assert (Hlen : length ranked = length matches).
  { subst ranked. rewrite sort_flights_sorted.
    apply Permutation_length, sorted_perm. }
  destruct ranked as [|best rest].
  { destruct matches; [congruence | discriminate]. }
  destruct (entries_priced (firstn 3 (best :: rest)) 1 Hpriced)
    as [listing [Hentries Hlisted]].
  assert (Hrec : exists by_price, recommendation (best :: rest) = Ok by_price).
  { unfold recommendation. destruct rest as [|second rest']; [now exists false |].
    destruct (price best) as [amount|] eqn:Hp; [eexists; reflexivity |].
    exfalso. apply (Hpriced best); [simpl; auto | exact Hp]. }
  destruct Hrec as [by_price Hrec].
  exists best, rest, listing, by_price.
  split; [reflexivity |]. split; [exact Hlisted |]. split; [exact Hrec |].
  unfold _run. rewrite <- Hm.
  destruct matches as [|m ms]; [congruence |].
  rewrite <- Hr. unfold _format_flight_output, report.
  rewrite Hentries, Hrec. cbn [bind]. rewrite Hlen. reflexivity.
Qed.

End FlightAnswer.

Section FlightAnswers.
Import Py FlightSearch FlightReport.

Variable departure_time : Flight -> option string.
Variable arrival_time : Flight -> option string.
Variable available_seats : Flight -> option Z.

Lemma in_skipn {A : Type} (n : nat) (l : list A) (x : A) :
  In x (skipn n l) -> In x l.
Proof.
  intros H. rewrite <- (firstn_skipn n l). apply in_or_app. now right.
Qed.

Lemma sorted_head_before_tail {A : Type} (R : A -> A -> Prop) (l : list A) :
  StronglySorted R l ->
  forall (n : nat) (a b : A),
    In a (firstn n l) -> In b (skipn n l) -> R a b.
Proof.
  induction 1 as [|x l Hs IH Hx]; intros n a b Ha Hb.
  - destruct n; destruct Ha.
  - destruct n as [|n]; [destruct Ha |].
    simpl in Ha, Hb. destruct Ha as [Ha | Ha].
    + subst a. rewrite Forall_forall in Hx. apply Hx. eapply in_skipn, Hb.
    + exact (IH n a b Ha Hb).
Qed.

(** X13.  A search with matches lists at most three of them, while the first
    line counts them all; the flights listed are the first three in the
    order of the sort, and a match that is not listed has a key (price, or
    minutes for [sort_by] "duration") at least that of every flight
    listed. *)
Theorem run_lists_top_three :
  forall (flights_data : list Flight) (source destination sort_by : string),
    let matches := _filter_flights flights_data source destination in
    let ranked := _sort_flights matches sort_by in
    matches <> [] ->
    (forall f, In f (firstn 3 ranked) -> price f <> None) ->
    exists listing closing,
      _run departure_time arrival_time available_seats
           flights_data source destination sort_by
      = concat_str
          (map (render departure_time arrival_time available_seats)
               ([Found (length matches)] ++ listing ++ closing))
      /\ listed listing = firstn 3 ranked
      /\ listed closing = []
      /\ forall a b,
           In a (firstn 3 ranked) -> In b (skipn 3 ranked) ->
           sort_key sort_by a <= sort_key sort_by b.
Proof.
  intros flights_data source destination sort_by matches ranked Hne Hpriced.
  destruct (run_report departure_time arrival_time available_seats
              flights_data source destination sort_by Hne Hpriced)
    as [best [rest [listing [by_price [_ [Hlisted [_ Hrun]]]]]]].
  exists listing, [Recommend best; Word by_price; Closing].
  split; [exact Hrun |]. split; [exact Hlisted |]. split; [reflexivity |].
  intros a b Ha Hb.
  apply (sorted_head_before_tail (key_le (sort_key sort_by)) ranked) with (n := 3%nat);
    try assumption.
  unfold ranked. rewrite sort_flights_sorted. apply sorted_is_sorted.
Qed.

(** X14.  A match without a price among the first three turns the whole answer
    into the error text: no flight is listed. *)
Theorem unpriced_match_is_error :
  forall (flights_data : list Flight) (source destination sort_by : string),
    let matches := _filter_flights flights_data source destination in
    let ranked := _sort_flights matches sort_by in
    (exists f, In f (firstn 3 ranked) /\ price f = None) ->
    _run departure_time arrival_time available_seats
         flights_data source destination sort_by
    = "Error searching flights: "
      ++ "unsupported format string passed to NoneType.__format__".
Proof.
  cbv zeta. intros flights_data source destination sort_by Hex.
  unfold _run.
  destruct (_filter_flights flights_data source destination) as [|m ms] eqn:Hm.
  { destruct Hex as [f [Hin _]]. rewrite sort_flights_sorted in Hin.
    destruct Hin. }
  destruct (_sort_flights (m :: ms) sort_by) as [|best rest] eqn:Hr.
  { destruct Hex as [f [Hin _]]. destruct Hin. }
  unfold _format_flight_output, report.
  rewrite (entries_unpriced _ 1 Hex). reflexivity.
Qed.

(** X15.  Sorted by price, a search with two or more matches always recommends
    the first flight for its price. *)
Theorem price_sort_recommends_price :
  forall (flights_data : list Flight) (source destination sort_by : string),
    let matches := _filter_flights flights_data source destination in
    let ranked := _sort_flights matches sort_by in
    String.eqb sort_by "duration" = false ->
    (2 <= length matches)%nat ->
    (forall f, In f (firstn 3 ranked) -> price f <> None) ->
    exists best listing,
      hd_error ranked = Some best
      /\ _run departure_time arrival_time available_seats
              flights_data source destination sort_by
         = concat_str
             (map (render departure_time arrival_time available_seats)
                  ([Found (length matches)] ++ listing
                   ++ [Recommend best; Word true; Closing])).
Proof.
  cbv zeta. intros flights_data source destination sort_by Hsort Hlen Hpriced.
  assert (Hne : _filter_flights flights_data source destination <> []).
  { destruct (_filter_flights flights_data source destination);
      [simpl in Hlen; lia | discriminate]. }
  destruct (run_report departure_time arrival_time available_seats
              flights_data source destination sort_by Hne Hpriced)
    as [best [rest [listing [by_price [Hranked [_ [Hrec Hrun]]]]]]].
  exists best, listing. rewrite Hranked. split; [reflexivity |].
  assert (Htrue : by_price = true).
  { assert (Hsorted : StronglySorted (key_le price_key)
                        (_sort_flights
                           (_filter_flights flights_data source destination)
                           sort_by)).
    { rewrite sort_flights_sorted. unfold sort_key.
      rewrite Hsort. apply sorted_is_sorted. }
    assert (Hl : length (_sort_flights
                           (_filter_flights flights_data source destination)
                           sort_by)
                 = length (_filter_flights flights_data source destination)).
    { rewrite sort_flights_sorted. apply Permutation_length, sorted_perm. }
    rewrite Hranked in Hrec, Hsorted, Hl.
    destruct rest as [|second rest']; [simpl in Hl; lia |].
    unfold recommendation in Hrec.
    destruct (price best) as [amount|] eqn:Hp; [| discriminate].
    inversion Hrec as [Hb]. apply Z.leb_le.
    inversion Hsorted as [|? ? _ Hall]; subst.
    inversion Hall as [|? ? Hle _]; subst.
    unfold key_le, price_key in Hle. rewrite Hp in Hle. exact Hle. }
  rewrite Htrue in Hrun. exact Hrun.
Qed.

(** X16.  With exactly one match the recommendation names the duration,
    also when the search was sorted by price. *)
Theorem single_match_recommends_duration :
  forall (flights_data : list Flight) (source destination sort_by : string)
         (only : Flight),
    _filter_flights flights_data source destination = [only] ->
    price only <> None ->
    exists listing,
      _run departure_time arrival_time available_seats
           flights_data source destination sort_by
      = concat_str
          (map (render departure_time arrival_time available_seats)
               ([Found 1] ++ listing
                ++ [Recommend only; Word false; Closing]))
      /\ listed listing = [only].
Proof.
  intros flights_data source destination sort_by only Hm Hp.
  unfold _run. rewrite Hm.
  assert (Hr : _sort_flights [only] sort_by = [only]).
  { rewrite sort_flights_sorted. reflexivity. }
  rewrite Hr. unfold _format_flight_output, report. cbn [firstn entries].
  unfold entry. destruct (price only) as [amount|] eqn:E; [| congruence].
  cbn [bind recommendation]. eexists. split; reflexivity.
Qed.

End FlightAnswers.

Section FlightAnswerSamples.
Import Py FlightSearch FlightReport.

Lemma run_lists_top_three_witness :
  exists listing closing,
    _run no_text no_text no_number sample_flights "Delhi" "Goa" "price"
    = concat_str
        (map (render no_text no_text no_number)
             ([Found (length (_filter_flights sample_flights "Delhi" "Goa"))]
              ++ listing ++ closing))
    /\ listed listing
       = firstn 3 (_sort_flights (_filter_flights sample_flights "Delhi" "Goa")
                                 "price")
    /\ listed closing = []
    /\ forall a b,
         In a (firstn 3 (_sort_flights
                           (_filter_flights sample_flights "Delhi" "Goa")
                           "price")) ->
         In b (skipn 3 (_sort_flights
                          (_filter_flights sample_flights "Delhi" "Goa")
                          "price")) ->
         sort_key "price" a <= sort_key "price" b.
Proof.
  apply (run_lists_top_three no_text no_text no_number sample_flights
           "Delhi" "Goa" "price").
  - vm_compute. discriminate.
  - intros f Hin. vm_compute in Hin.
    destruct Hin as [H | [H | H]]; [subst f; discriminate
                                   | subst f; discriminate | destruct H].
Defined.

Lemma unpriced_match_is_error_witness :
  _run no_text no_text no_number unpriced_flight "Delhi" "Goa" "price"
  = "Error searching flights: "
    ++ "unsupported format string passed to NoneType.__format__".
Proof.
  apply (unpriced_match_is_error no_text no_text no_number unpriced_flight
           "Delhi" "Goa" "price").
  eexists. split; [left; reflexivity | reflexivity].
Defined.

Lemma price_sort_recommends_price_witness :
  exists best listing,
    hd_error (_sort_flights (_filter_flights sample_flights "Delhi" "Goa")
                            "price")
    = Some best
    /\ _run no_text no_text no_number sample_flights "Delhi" "Goa" "price"
       = concat_str
           (map (render no_text no_text no_number)
                ([Found (length (_filter_flights sample_flights "Delhi" "Goa"))]
                 ++ listing ++ [Recommend best; Word true; Closing])).
Proof.
  apply (price_sort_recommends_price no_text no_text no_number sample_flights
           "Delhi" "Goa" "price").
  - reflexivity.
  - vm_compute. lia.
  - intros f Hin. vm_compute in Hin.
    destruct Hin as [H | [H | H]]; [subst f; discriminate
                                   | subst f; discriminate | destruct H].
Defined.

Lemma single_match_recommends_duration_witness :
  exists listing,
    _run no_text no_text no_number one_flight "Delhi" "Goa" "price"
    = concat_str
        (map (render no_text no_text no_number)
             ([Found 1] ++ listing
              ++ [Recommend (mkFlight "6E-123" "IndiGo" (Some "Delhi")
                               (Some "Goa") (Some 150) (Some 4800));
                  Word false; Closing]))
    /\ listed listing
       = [mkFlight "6E-123" "IndiGo" (Some "Delhi") (Some "Goa")
                   (Some 150) (Some 4800)].
Proof.
  apply (single_match_recommends_duration no_text no_text no_number
           one_flight "Delhi" "Goa" "price").
  - reflexivity.
  - discriminate.
Defined.

End FlightAnswerSamples.

(** ** The tools of the agent on malformed input, and the budget *)

Section ToolAnswers.
Import Py Json TravelAgent AgentTools.

Variable json_loads : string -> result json.

(** X18.  On input that is not JSON only two of the five tools answer with
    status error, the flight search and the budget calculator; the hotel,
    weather and places tools give the answer they give for any other
    input, which is not the error answer.  On input that is JSON but not
    an object the flight search answers with status success and its one
    flight (IndiGo, 4800, departing 14:00, 2h 30m) and the budget
    calculator with status error. *)
Theorem tools_on_malformed_input :
  forall input_str : string,
    (forall e, json_loads input_str = Raise e ->
       _flight_search json_loads input_str = error_answer
       /\ _budget_calculator json_loads input_str = Some error_answer
       /\ (_hotel_search input_str = _hotel_search goa_query
           /\ _hotel_search input_str <> error_answer)
       /\ (_weather_lookup input_str = _weather_lookup goa_query
           /\ _weather_lookup input_str <> error_answer)
       /\ (_places_search input_str = _places_search goa_query
           /\ _places_search input_str <> error_answer))
    /\ (forall value, json_loads input_str = Ok value ->
          (forall fields, value <> JObj fields) ->
          _flight_search json_loads input_str
          = JObj [("status", JStr "success");
                  ("flights",
                   JArr [JObj [("airline", JStr "IndiGo");
                               ("price", JNum 4800);
                               ("departure", JStr "14:00");
                               ("duration", JStr "2h 30m")]])]
          /\ _budget_calculator json_loads input_str = Some error_answer).
Proof.
  intros input_str. split.
  - intros e He. unfold _flight_search, _budget_calculator. rewrite He.
    split; [reflexivity |]. split; [reflexivity |].
    split; [| split]; (split; [reflexivity | discriminate]).
  - intros value Hv Hshape. unfold _flight_search, _budget_calculator.
    rewrite Hv. split; [reflexivity |].
    destruct value; try reflexivity. exfalso. eapply Hshape. reflexivity.
Qed.

(** X19.  The budget calculator and the demo itinerary agree: given only the
    number of nights, the calculator's total for [days] nights is the
    total that the demo itinerary states for a trip of [days] days, and
    its total is the sum of its three parts. *)
Theorem budget_calculator_matches_demo :
  forall (input_str : string) (params : list (string * json)) (days : Z),
    json_loads input_str = Ok (JObj params) ->
    lookup "nights" params = Some (JNum (inject_Z days)) ->
    lookup "flight_price" params = None ->
    lookup "hotel_price" params = None ->
    lookup "daily_expense" params = None ->
    exists flight hotel daily total,
      breakdown_field "flight" (_budget_calculator json_loads input_str)
      = Some flight
      /\ breakdown_field "hotel" (_budget_calculator json_loads input_str)
         = Some hotel
      /\ breakdown_field "daily" (_budget_calculator json_loads input_str)
         = Some daily
      /\ breakdown_field "total" (_budget_calculator json_loads input_str)
         = Some total
      /\ (total == flight + hotel + daily)%Q
      /\ (total == inject_Z (demo_total days))%Q.
Proof.
  intros input_str params days Hloads Hn Hf Hh Hd.
  unfold _budget_calculator, number_or. rewrite Hloads, Hn, Hf, Hh, Hd. simpl.
  do 4 eexists. do 4 (split; [reflexivity |]).
  split.
  - reflexivity.
  - unfold demo_total. rewrite !inject_Z_plus, !inject_Z_mult. reflexivity.
Qed.

End ToolAnswers.

Section ToolAnswerSamples.
Import Py Json TravelAgent AgentTools.

Lemma budget_calculator_matches_demo_witness :
  exists flight hotel daily total,
    breakdown_field "flight" (_budget_calculator sample_loads "nights7")
    = Some flight
    /\ breakdown_field "hotel" (_budget_calculator sample_loads "nights7")
       = Some hotel
    /\ breakdown_field "daily" (_budget_calculator sample_loads "nights7")
       = Some daily
    /\ breakdown_field "total" (_budget_calculator sample_loads "nights7")
       = Some total
    /\ (total == flight + hotel + daily)%Q
    /\ (total == inject_Z (demo_total 7))%Q.
Proof.
  apply (budget_calculator_matches_demo sample_loads "nights7"
           [("nights", JNum 7)] 7); reflexivity.
Defined.

End ToolAnswerSamples.

(** ** The choice of a model and the agent it gives *)

Section DetectorFacts.
Import Py TravelAgent Detector.

Variable LLM : Type.
Variable requests_import : bool.
Variable ollama_tags : result (Z * result (list (result string))).
Variable ollama_import : bool.
Variable make_ollama : string -> Q -> result LLM.
Variable google_api_key : option string.
Variable gemini_import : bool.
Variable make_gemini : string -> Q -> result LLM.
Variable build_executor : LLM -> result (string -> result string).
Variable temperature : Q.

Local Abbreviation detect :=
  (_auto_initialize_llm LLM requests_import ollama_tags ollama_import
     make_ollama google_api_key gemini_import make_gemini temperature).

Local Abbreviation construct :=
  (init LLM requests_import ollama_tags ollama_import
     make_ollama google_api_key gemini_import make_gemini
     build_executor temperature).

Lemma try_ollama_tag (llm : LLM) (tag : string) :
  _try_ollama LLM requests_import ollama_tags ollama_import make_ollama
              temperature = Some (llm, tag) ->
  tag = "ollama".
Proof.
  unfold _try_ollama.
  destruct (negb requests_import); [discriminate |].
  destruct ollama_tags as [[code body]|]; [| discriminate].
  destruct (code =? 200); [| discriminate].
  destruct (negb ollama_import); [discriminate |].
  destruct body as [[|[model_name|] rest]|]; try discriminate.
  destruct (make_ollama model_name temperature); [| discriminate].
  intros H. now inversion H.
Qed.

Lemma try_gemini_tag (llm : LLM) (tag : string) :
  _try_gemini LLM google_api_key gemini_import make_gemini temperature
  = Some (llm, tag) ->
  tag = "gemini".
Proof.
  unfold _try_gemini.
  destruct google_api_key as [[|c key]|]; try discriminate.
  destruct (negb gemini_import); [discriminate |].
  destruct (make_gemini (String c key) temperature); [| discriminate].
  intros H. now inversion H.
Qed.

(** The tag and the model go together. *)
Lemma detect_cases :
  (fst detect = None /\ snd detect = "demo")
  \/ (exists llm, fst detect = Some llm
                  /\ (snd detect = "ollama" \/ snd detect = "gemini")).
Proof.
  unfold _auto_initialize_llm.
  destruct (_try_ollama _ _ _ _ _ _) as [[llm tag]|] eqn:Ho.
  - right. exists llm. apply try_ollama_tag in Ho. subst. simpl. auto.
  - destruct (_try_gemini _ _ _ _ _) as [[llm tag]|] eqn:Hg.
    + right. exists llm. apply try_gemini_tag in Hg. subst. simpl. auto.
    + left. split; reflexivity.
Qed.

Lemma init_cases (self : HybridTravelAgent) :
  construct = Ok self ->
  (self = demo_agent)
  \/ ((provider self = "ollama" \/ provider self = "gemini")
      /\ exists llm executor,
           fst detect = Some llm
           /\ build_executor llm = Ok executor
           /\ agent self = Some executor).
Proof.
  unfold init.
  destruct detect_cases as [[Hllm Htag] | [llm [Hllm Htag]]];
    destruct detect as [model tag]; simpl in Hllm, Htag; subst model.
  - subst tag. simpl. intros H. inversion H. now left.
  - simpl. destruct (build_executor llm) as [executor|e] eqn:Hb;
      [| discriminate].
    simpl. intros H. inversion H. right. simpl. split; [exact Htag |].
    now exists llm, executor.
Qed.

(** X20.  Every agent that the constructor returns is either the demo agent,
    with no executor, or has the tag of a model that was found, "ollama"
    or "gemini", and the executor built around that model.  So a
    constructed agent is in demo mode exactly when it has no executor. *)
Theorem constructed_agent_invariant :
  forall self : HybridTravelAgent,
    construct = Ok self ->
    (self = demo_agent)
    \/ ((provider self = "ollama" \/ provider self = "gemini")
        /\ exists llm executor,
             fst detect = Some llm
             /\ build_executor llm = Ok executor
             /\ agent self = Some executor).
Proof.
  exact init_cases.
Qed.

(** X21.  With the local service out of reach and no key, construction cannot
    fail: it returns the demo agent, for which [plan_trip] is the demo
    plan. *)
Theorem no_model_gives_demo_agent :
  forall e : exn,
    ollama_tags = Raise e ->
    google_api_key = None ->
    construct = Ok demo_agent
    /\ forall source destination start_date end_date budget preferences,
         plan_trip demo_agent source destination start_date end_date
                   budget preferences
         = _demo_plan_trip source destination start_date end_date budget.
Proof.
  intros e Htags Hkey. split.
  - unfold init, _auto_initialize_llm, _try_ollama, _try_gemini.
    rewrite Htags, Hkey. destruct (negb requests_import); reflexivity.
  - reflexivity.
Qed.

(** X22.  The local model has priority: when the local service answers 200
    with a first model that has a name, and the Ollama class imports and
    builds, the tag is "ollama" whatever the Gemini key and class. *)
Theorem local_model_has_priority :
  forall (model_name : string) (others : list (result string)) (llm : LLM),
    requests_import = true ->
    ollama_import = true ->
    ollama_tags = Ok (200, Ok (Ok model_name :: others)) ->
    make_ollama model_name temperature = Ok llm ->
    detect = (Some llm, "ollama").
Proof.
  intros model_name others llm Hreq Himp Htags Hmake.
  unfold _auto_initialize_llm, _try_ollama.
  rewrite Hreq, Himp, Htags. simpl. rewrite Hmake. reflexivity.
Qed.

(** X23.  The error message of a constructed agent is never a fault of the
    agent object itself: when [plan_trip] returns status error, both
    dates parsed, the agent has an executor, that executor raised on the
    query that [plan_trip] built from the arguments and the day count of
    the two dates, and the message is the text of its exception. *)
Theorem constructed_agent_error_is_engine_error :
  forall (self : HybridTravelAgent)
         (source destination start_date end_date : string)
         (budget : option Z) (preferences : option string)
         (tag msg : string),
    construct = Ok self ->
    plan_trip self source destination start_date end_date budget preferences
    = Ok (PlanError tag msg) ->
    exists executor start end_ e,
      agent self = Some executor
      /\ strptime start_date = Ok start
      /\ strptime end_date = Ok end_
      /\ executor (plan_query source destination start_date end_date
                              (days_between start end_ + 1)
                              budget preferences)
         = Raise e
      /\ msg = str_exn e
      /\ tag = provider self.
Proof.
  intros self source destination start_date end_date budget preferences
         tag msg Hinit Hplan.
  destruct (init_cases self Hinit)
    as [Hdemo | [Htag [llm [executor [_ [_ Hagent]]]]]].
  - subst self. unfold plan_trip, _demo_plan_trip in Hplan. simpl in Hplan.
    destruct (strptime start_date); [| discriminate].
    destruct (strptime end_date); discriminate.
  - unfold plan_trip in Hplan.
    destruct (String.eqb (provider self) "demo") eqn:E.
    + apply String.eqb_eq in E. destruct Htag as [H | H];
        rewrite H in E; discriminate.
    + destruct (strptime start_date) as [start|]; [| discriminate].
      destruct (strptime end_date) as [end_|]; [| discriminate].
      cbn [bind] in Hplan. cbv zeta in Hplan. rewrite Hagent in Hplan.
      destruct (executor (plan_query source destination start_date end_date
                            (days_between start end_ + 1) budget preferences))
        as [output|ex] eqn:Hq; inversion Hplan; subst.
      exists executor, start, end_, ex.
      split; [exact Hagent |].
      split; [reflexivity |]. split; [reflexivity |].
      split; [exact Hq |]. split; reflexivity.
Qed.

End DetectorFacts.

Section DetectorSamples.
Import Py TravelAgent Detector.

Lemma constructed_agent_invariant_witness :
  (mkAgent "ollama" (Some timing_out) = demo_agent)
  \/ ((provider (mkAgent "ollama" (Some timing_out)) = "ollama"
       \/ provider (mkAgent "ollama" (Some timing_out)) = "gemini")
      /\ exists llm executor,
           fst (_auto_initialize_llm unit true one_model true handle
                  None true handle 0.7%Q) = Some llm
           /\ build_timing_out llm = Ok executor
           /\ agent (mkAgent "ollama" (Some timing_out)) = Some executor).
Proof.
  apply (constructed_agent_invariant unit true one_model true handle
           None true handle build_timing_out 0.7%Q).
  reflexivity.
Defined.

Lemma no_model_gives_demo_agent_witness :
  init unit true refused true handle None true handle build_timing_out 0.7%Q
  = Ok demo_agent
  /\ forall source destination start_date end_date budget preferences,
       plan_trip demo_agent source destination start_date end_date
                 budget preferences
       = _demo_plan_trip source destination start_date end_date budget.
Proof.
  apply (no_model_gives_demo_agent unit true refused true handle None true
           handle build_timing_out 0.7%Q
           (RequestException "Connection refused")); reflexivity.
Defined.

Lemma local_model_has_priority_witness :
  _auto_initialize_llm unit true one_model true handle
    (Some "key") true handle 0.7%Q
  = (Some tt, "ollama").
Proof.
  apply (local_model_has_priority unit true one_model true handle
           (Some "key") true handle 0.7%Q "llama3.2" []); reflexivity.
Defined.

Lemma constructed_agent_error_is_engine_error_witness :
  exists executor start end_ e,
    agent (mkAgent "ollama" (Some timing_out)) = Some executor
    /\ strptime "2024-03-01" = Ok start
    /\ strptime "2024-03-04" = Ok end_
    /\ executor (plan_query "Delhi" "Goa" "2024-03-01" "2024-03-04"
                            (days_between start end_ + 1) None None)
       = Raise e
    /\ "model timeout" = str_exn e
    /\ "ollama" = provider (mkAgent "ollama" (Some timing_out)).
Proof.
  apply (constructed_agent_error_is_engine_error unit true one_model true
           handle None true handle build_timing_out 0.7%Q
           (mkAgent "ollama" (Some timing_out))
           "Delhi" "Goa" "2024-03-01" "2024-03-04" None None
           "ollama" "model timeout"); reflexivity.
Defined.

End DetectorSamples.

(** ** The page and the dates it passes on *)

Section FormDates.
Import Py TravelAgent App.

Lemma four_digit_years :
  forallb
    (fun n : nat =>
       match str_int (1000 + Z.of_nat n) with
       | String a (String b (String c (String d EmptyString))) =>
           is_digit a && is_digit b && is_digit c && is_digit d
           && (1000 * digit_val a + 100 * digit_val b
               + 10 * digit_val c + digit_val d =? 1000 + Z.of_nat n)
       | _ => false
       end)
    (seq 0 (Z.to_nat 9000)) = true.
Proof.
  vm_compute. reflexivity.
Qed.

Lemma year_text (y : Z) (rest : string) :
  1000 <= y <= 9999 ->
  parse_year (str_int y ++ rest) = Some (y, rest).
Proof.
  intros Hy.
  pose proof four_digit_years as Hall.
  rewrite forallb_forall in Hall.
  specialize (Hall (Z.to_nat (y - 1000))).
  replace (1000 + Z.of_nat (Z.to_nat (y - 1000))) with y in Hall by lia.
  assert (Hin : In (Z.to_nat (y - 1000)) (seq 0 (Z.to_nat 9000)))
    by (apply in_seq; lia).
  specialize (Hall Hin).
  destruct (str_int y) as [|a [|b [|c [|d [|x r]]]]]; try discriminate.
  apply andb_true_iff in Hall. destruct Hall as [Hdigits Hval].
  apply Z.eqb_eq in Hval.
  cbn [append]. unfold parse_year. rewrite Hdigits, Hval. reflexivity.
Qed.

Lemma month_day_text (y m d : Z) :
  1 <= m <= 12 -> 1 <= d <= 31 ->
  first_some
    (fun mr : Z * string =>
       match snd mr with
       | String "-" r2 =>
           match day_alts r2 with
           | (d', r3) :: _ => Some (mkDate y (fst mr) d', r3)
           | [] => None
           end
       | _ => None
       end)
    (month_alts (Weather.two_digits m ++ String "-" (Weather.two_digits d)))
  = Some (mkDate y m d, "").
Proof.
  intros Hm Hd.
  assert (Hms : m = 1 \/ m = 2 \/ m = 3 \/ m = 4 \/ m = 5 \/ m = 6 \/ m = 7 \/ m = 8 \/ m = 9 \/ m = 10 \/ m = 11 \/ m = 12) by lia.
  assert (Hds : d = 1 \/ d = 2 \/ d = 3 \/ d = 4 \/ d = 5 \/ d = 6 \/ d = 7 \/ d = 8 \/ d = 9 \/ d = 10 \/ d = 11 \/ d = 12 \/ d = 13 \/ d = 14 \/ d = 15 \/ d = 16 \/ d = 17 \/ d = 18 \/ d = 19 \/ d = 20 \/ d = 21 \/ d = 22 \/ d = 23 \/ d = 24 \/ d = 25 \/ d = 26 \/ d = 27 \/ d = 28 \/ d = 29 \/ d = 30 \/ d = 31) by lia.
  destruct Hms as [-> | [-> | [-> | [-> | [-> | [-> | [-> | [-> | [-> | [-> | [-> | ->]]]]]]]]]]];
    destruct Hds as [-> | [-> | [-> | [-> | [-> | [-> | [-> | [-> | [-> | [-> | [-> | [-> | [-> | [-> | [-> | [-> | [-> | [-> | [-> | [-> | [-> | [-> | [-> | [-> | [-> | [-> | [-> | [-> | [-> | [-> | ->]]]]]]]]]]]]]]]]]]]]]]]]]]]]]];
    reflexivity.
Qed.

Lemma form_date_round_trip_lemma (d : date) :
  valid_date d = true ->
  1000 <= year d ->
  strptime (strftime_ymd d) = Ok d.
Proof.
  revert d.
  intros [y m dd] Hvalid Hyear. unfold valid_date in Hvalid. simpl in *.
  repeat (apply andb_true_iff in Hvalid; destruct Hvalid as [Hvalid ?]).
  repeat match goal with
         | H : (_ <=? _) = true |- _ => apply Z.leb_le in H
         end.
  assert (Hdim : days_in_month y m <= 31).
  { unfold days_in_month.
    repeat match goal with |- context [if ?c then _ else _] => destruct c end;
      lia. }
  unfold strptime, match_ymd, strftime_ymd. cbn [year month day].
  rewrite year_text by lia. cbn [append].
  rewrite (month_day_text y m dd) by lia.
  unfold valid_date. cbn [year month day].
  repeat match goal with
         | H : _ <= _ |- _ => apply Z.leb_le in H; rewrite H
         end.
  reflexivity.
Qed.

(** X24.  A date of the form survives the way to the planner: written with
    [strftime("%Y-%m-%d")] and read back with [strptime], a valid date of
    the years 1000 to 9999 comes out as it went in. *)
Theorem form_date_round_trip :
  forall d : date,
    valid_date d = true ->
    1000 <= year d ->
    strptime (strftime_ymd d) = Ok d.
Proof.
  exact form_date_round_trip_lemma.
Qed.

Lemma form_date_round_trip_witness :
  strptime (strftime_ymd (mkDate 2024 3 1)) = Ok (mkDate 2024 3 1).
Proof.
  apply (form_date_round_trip (mkDate 2024 3 1)).
  - reflexivity.
  - simpl. lia.
Defined.

End FormDates.

Section PlanButton.
Import Py TravelAgent App.

(** X25.  A form that passes the two checks of the page, with both cities
    given and an end date after a start date of the year 1000 or later,
    always gets its itinerary from a demo agent: the dates written by the
    page are read back by the planner, no error box is shown, and the
    itinerary is the demo plan for the days from start to end. *)
Theorem valid_form_shows_itinerary :
  forall (self : HybridTravelAgent) (source destination : string)
         (start_date end_date : date) (budget : Z) (preferences : string),
    provider self = "demo" ->
    source <> "" ->
    destination <> "" ->
    valid_date start_date = true ->
    valid_date end_date = true ->
    1000 <= year start_date ->
    date_leb end_date start_date = false ->
    on_plan (Ok self) source destination start_date end_date budget preferences
    = [SuccessBox "✅ Trip planning completed!";
       Markdown "---";
       Subheader "📅 Your Trip Itinerary";
       Markdown (demo_itinerary source destination
                                (trip_days start_date end_date))].
Proof.
  intros self source destination start_date end_date budget preferences
         Hdemo Hs Hd Hvs Hve Hyear Horder.
  assert (Hyear_end : 1000 <= year end_date).
  { unfold date_leb in Horder.
    apply orb_false_iff in Horder. destruct Horder as [Hlt _].
    apply Z.ltb_ge in Hlt. lia. }
  unfold on_plan.
  rewrite (proj2 (String.eqb_neq source "") Hs).
  rewrite (proj2 (String.eqb_neq destination "") Hd).
  rewrite Horder. cbn [orb].
  rewrite (plan_trip_demo _ _ _ _ _ _ _ Hdemo).
  unfold _demo_plan_trip.
  rewrite (form_date_round_trip_lemma start_date Hvs Hyear).
  rewrite (form_date_round_trip_lemma end_date Hve Hyear_end).
  reflexivity.
Qed.

Lemma valid_form_shows_itinerary_witness :
  on_plan (Ok demo_agent) "Delhi" "Goa" (mkDate 2024 3 1) (mkDate 2024 3 4)
          20000 ""
  = [SuccessBox "✅ Trip planning completed!";
     Markdown "---";
     Subheader "📅 Your Trip Itinerary";
     Markdown (demo_itinerary "Delhi" "Goa"
                 (trip_days (mkDate 2024 3 1) (mkDate 2024 3 4)))].
Proof.
  apply (valid_form_shows_itinerary demo_agent "Delhi" "Goa"
           (mkDate 2024 3 1) (mkDate 2024 3 4) 20000 "").
  - reflexivity.
  - discriminate.
  - discriminate.
  - reflexivity.
  - reflexivity.
  - simpl. lia.
  - reflexivity.
Defined.

End PlanButton.

(** ** [plan_trip]: edges of its inputs *)

Section PlanEdges.
Import Py TravelAgent.

(** X26.  An end date before the start date is not rejected by the planner: in
    demo mode the answer is status success, the itinerary has no day
    lines, its day count is zero or less, and it states the total
    4800 + 4000 * days, which is negative from days = -2 on. *)
Theorem demo_plan_backwards :
  forall (self : HybridTravelAgent) (source dest start end_ : string)
         (budget : option Z) (preferences : option string) (s e : date),
    provider self = "demo" ->
    strptime start = Ok s ->
    strptime end_ = Ok e ->
    toordinal e < toordinal s ->
    let days := toordinal e - toordinal s + 1 in
    plan_trip self source dest start end_ budget preferences
    = Ok (PlanSuccess "demo"
            (demo_header source dest days ++ demo_budget days))
    /\ days <= 0
    /\ states_total (demo_header source dest days ++ demo_budget days)
                    (4800 + 4000 * days).
Proof.
  intros self source dest start end_ budget preferences s e
         Hdemo Hs He Horder days.
  assert (Hdays : days <= 0) by (unfold days; lia).
  rewrite (plan_trip_demo _ _ _ _ _ _ _ Hdemo).
  unfold _demo_plan_trip. rewrite Hs, He. cbn [bind].
  assert (Htext : demo_itinerary source dest
                    (trip_days s e)
                  = demo_header source dest days ++ demo_budget days).
  { unfold demo_itinerary, trip_days, days_between. fold days.
    replace (Z.to_nat days) with 0%nat by lia. reflexivity. }
  rewrite Htext. split; [reflexivity |]. split; [exact Hdays |].
  rewrite <- Htext.
  replace (4800 + 4000 * days) with (demo_total (trip_days s e))
    by (unfold demo_total, trip_days, days_between, days; lia).
  apply demo_itinerary_states_total.
Qed.

Lemma demo_plan_backwards_witness :
  let days := toordinal (mkDate 2024 3 1) - toordinal (mkDate 2024 3 4) + 1 in
  plan_trip demo_agent "Delhi" "Goa" "2024-03-04" "2024-03-01" None None
  = Ok (PlanSuccess "demo"
          (demo_header "Delhi" "Goa" days ++ demo_budget days))
  /\ days <= 0
  /\ states_total (demo_header "Delhi" "Goa" days ++ demo_budget days)
                  (4800 + 4000 * days).
Proof.
  apply (demo_plan_backwards demo_agent "Delhi" "Goa" "2024-03-04" "2024-03-01"
           None None (mkDate 2024 3 4) (mkDate 2024 3 1)).
  - reflexivity.
  - reflexivity.
  - reflexivity.
  - vm_compute. reflexivity.
Defined.

(** X27.  A budget of zero and an empty preference text count as absent, in
    demo mode and with a reasoning engine: the answer is the one for no
    budget and no preferences. *)
Theorem zero_budget_is_no_budget :
  forall (self : HybridTravelAgent)
         (source destination start_date end_date : string),
    plan_trip self source destination start_date end_date (Some 0) (Some "")
    = plan_trip self source destination start_date end_date None None.
Proof.
  intros self source destination start_date end_date.
  unfold plan_trip.
  destruct (String.eqb (provider self) "demo"); reflexivity.
Qed.

End PlanEdges.

(** ** Flight tool: the text of a duration *)

Section DurationText.
Import Py FlightSearch FlightReport.

Lemma string_of_uint_numeric (u : Decimal.uint) :
  numeric (NilEmpty.string_of_uint u) = true.
Proof.
  induction u; simpl; auto.
Qed.

Lemma str_int_numeric (z : Z) : numeric (str_int z) = true.
Proof.
  unfold str_int, NilZero.string_of_int, NilZero.string_of_uint.
  destruct (Z.to_int z) as [u | u]; destruct u;
    try reflexivity; simpl; try apply string_of_uint_numeric.
Qed.

Lemma to_int_not_nil (z : Z) :
  Z.to_int z <> Decimal.Pos Decimal.Nil /\ Z.to_int z <> Decimal.Neg Decimal.Nil.
Proof.
  split; intros E; pose proof (DecimalZ.of_to z) as H; rewrite E in H;
    simpl in H; subst z; discriminate E.
Qed.

Lemma str_int_inj (a b : Z) : str_int a = str_int b -> a = b.
Proof.
  unfold str_int. intros H.
  apply (f_equal NilZero.int_of_string) in H.
  destruct (to_int_not_nil a) as [Ha1 Ha2].
  destruct (to_int_not_nil b) as [Hb1 Hb2].
  rewrite !NilZero.isi in H by assumption.
  inversion H. now apply DecimalZ.to_int_inj.
Qed.

(** Two numeric texts followed by the same letter part only at the same
    place. *)
Lemma split_at_letter (c : ascii) :
  is_num c = false ->
  forall s1 s2 r1 r2 : string,
    numeric s1 = true -> numeric s2 = true ->
    s1 ++ String c r1 = s2 ++ String c r2 ->
    s1 = s2 /\ r1 = r2.
Proof.
  intros Hc. induction s1 as [|x s1 IH]; intros [|y s2] r1 r2 H1 H2 H;
    simpl in *.
  - inversion H. auto.
  - inversion H; subst. apply andb_true_iff in H2. destruct H2. congruence.
  - inversion H; subst. apply andb_true_iff in H1. destruct H1. congruence.
  - inversion H; subst.
    apply andb_true_iff in H1. apply andb_true_iff in H2.
    destruct (IH s2 r1 r2) as [E1 E2]; try tauto. subst. auto.
Qed.

(** X17.  The text of a duration tells the minutes: two durations with the
    same text are the same number of minutes, a whole number of hours
    being written without a minutes part. *)
Theorem format_duration_injective :
  forall a b : Z,
    _format_duration a = _format_duration b -> a = b.
Proof.
  intros a b. unfold _format_duration.
  pose proof (Z.mod_pos_bound a 60 ltac:(lia)) as Ha.
  pose proof (Z.mod_pos_bound b 60 ltac:(lia)) as Hb.
  pose proof (Z.div_mod a 60 ltac:(lia)) as Da.
  pose proof (Z.div_mod b 60 ltac:(lia)) as Db.
  assert (Hh : is_num "h" = false) by reflexivity.
  assert (Hm : is_num "m" = false) by reflexivity.
  destruct (0 <? a mod 60) eqn:Ea; destruct (0 <? b mod 60) eqn:Eb; intros H.
  - destruct (split_at_letter "h" Hh _ _ _ _ (str_int_numeric _)
                (str_int_numeric _) H) as [E1 E2].
    apply str_int_inj in E1.
    inversion E2 as [E3].
    destruct (split_at_letter "m" Hm _ _ _ _ (str_int_numeric _)
                (str_int_numeric _) E3) as [E4 _].
    apply str_int_inj in E4. lia.
  - destruct (split_at_letter "h" Hh _ _ _ _ (str_int_numeric _)
                (str_int_numeric _) H) as [_ E2].
    discriminate E2.
  - destruct (split_at_letter "h" Hh _ _ _ _ (str_int_numeric _)
                (str_int_numeric _) H) as [_ E2].
    discriminate E2.
  - destruct (split_at_letter "h" Hh _ _ _ _ (str_int_numeric _)
                (str_int_numeric _) H) as [E1 _].
    apply str_int_inj in E1.
    apply Z.ltb_ge in Ea. apply Z.ltb_ge in Eb. lia.
Qed.

Lemma format_duration_injective_witness : 150 = 150.
Proof.
  apply (format_duration_injective 150 150). reflexivity.
Defined.

End DurationText.
